(** * A model of the parcel-tracking form app (app.py) and of the logistics
      dashboard (dhl_logistics_app.py)

    Both programs are Streamlit scripts: a run of the script reads the widget
    values, performs HTTP requests against the REST backend and emits the
    page, element by element.  A run is modelled as a computation that
    produces a trace of events (requests made and elements displayed) and
    either a value or an uncaught Python exception.  The backend is an input
    of the model: every request is answered by a given [http_result].  So
    are pandas and plotly, where the dashboard hands them a body as it
    came: a call into them returns or raises, as the given [Libraries]
    say. *)

From Stdlib Require Import List NArith ZArith Bool String Ascii Lia.
Import ListNotations.

Set Implicit Arguments.

(** ** Python strings

    A [str] is a sequence of Unicode code points. *)

Definition pystr := list N.

(** ASCII literals of the source, as code points. *)
Definition u (s : string) : pystr := map N_of_ascii (list_ascii_of_string s).
Arguments u s%_string : simpl never.

Fixpoint str_eqb (a b : pystr) : bool :=
  match a, b with
  | [], [] => true
  | x :: a', y :: b' => N.eqb x y && str_eqb a' b'
  | _, _ => false
  end.

(** [bool(s)] of a string. *)
Definition str_truthy (s : pystr) : bool :=
  match s with [] => false | _ :: _ => true end.

(** [hay.startswith(needle)] and [needle in hay]. *)
Fixpoint startswith (needle hay : pystr) : bool :=
  match needle, hay with
  | [], _ => true
  | n :: needle', h :: hay' => N.eqb n h && startswith needle' hay'
  | _ :: _, [] => false
  end.

Fixpoint contains (needle hay : pystr) : bool :=
  startswith needle hay
  || match hay with [] => false | _ :: hay' => contains needle hay' end.

(** The substring relation that [contains] decides. *)
Definition substring (needle hay : pystr) : Prop :=
  exists l r, hay = l ++ needle ++ r.

(** *** Case

    On ASCII the case mappings are the table below.  What [str.lower] and
    the regular-expression engine do to a code point outside ASCII comes from
    the Unicode character database; it is an interface here, and every
    result below holds for each implementation of it. *)

Definition is_ascii (c : N) : bool := N.ltb c 128.

Definition ascii_lower (c : N) : N :=
  if N.leb 65 c && N.leb c 90 then (c + 32)%N else c.

Class UnicodeCase := {
  (** [lower_wide before c after]: the code points that [str.lower] writes
      for the non-ASCII code point [c], which stands after the code points
      [before] (nearest first) and in front of [after]. *)
  lower_wide : pystr -> N -> pystr -> pystr;
  (** [fold_wide p c]: whether the pattern character [p] matches the text
      character [c] under [re.IGNORECASE], when one of them is not ASCII. *)
  fold_wide : N -> N -> bool
}.

(** The implementation with no case outside ASCII, for concrete runs. *)
Definition ascii_case : UnicodeCase :=
  {| lower_wide := fun _ c _ => [c]; fold_wide := N.eqb |}.

Section Case.
Context {U : UnicodeCase}.

Fixpoint lower_from (before s : pystr) : pystr :=
  match s with
  | [] => []
  | c :: rest =>
      (if is_ascii c then [ascii_lower c] else lower_wide before c rest)
      ++ lower_from (c :: before) rest
  end.

(** [s.lower()] *)
Definition lower (s : pystr) : pystr := lower_from [] s.

(** Character equality under [re.IGNORECASE]. *)
Definition ci_eqb (p c : N) : bool :=
  if is_ascii p && is_ascii c then N.eqb (ascii_lower p) (ascii_lower c)
  else fold_wide p c.
End Case.

(** ** JSON values, as [response.json()] returns them

    A float is its mantissa and binary exponent. *)

#[warning="-register-all"]
Inductive json :=
| JNull
| JBool (b : bool)
| JInt (z : Z)
| JFloat (m e : Z)
| JStr (s : pystr)
| JList (l : list json)
| JObj (kv : list (pystr * json)).

(** [d.get(k)] on the members in document order: the last one wins. *)
Fixpoint dict_get (k : pystr) (kv : list (pystr * json)) : option json :=
  match kv with
  | [] => None
  | (k', v) :: rest =>
      match dict_get k rest with
      | Some w => Some w
      | None => if str_eqb k k' then Some v else None
      end
  end.

(** Python's truth value, the protocol behind [if data:]. *)
Class Truthy (A : Type) := truthy : A -> bool.

#[export] Instance Truthy_list {A} : Truthy (list A) :=
  fun l => match l with [] => false | _ :: _ => true end.

(** [None] is false. *)
#[export] Instance Truthy_option {A} `{Truthy A} : Truthy (option A) :=
  fun o => match o with None => false | Some a => truthy a end.

(** A parsed body: [None], [False], zero and the empty string, list and
    object are false. *)
#[export] Instance Truthy_json : Truthy json :=
  fun v => match v with
           | JNull => false
           | JBool b => b
           | JInt z => negb (Z.eqb z 0)
           | JFloat m _ => negb (Z.eqb m 0)
           | JStr s => str_truthy s
           | JList l => match l with [] => false | _ :: _ => true end
           | JObj kv => match kv with [] => false | _ :: _ => true end
           end.

(** ** Formatted text

    An f-string is kept as its pieces: literal text and the interpolated
    values, each printed by [str], or by its format when it has one. *)

(** A number that pandas computes from a fetched body, [df[column].mean()]
    or [df[column].sum()].  It is floating point of numpy and is kept as
    the call. *)
Inductive metric :=
| series_mean (data : json) (column : pystr)
| series_sum (data : json) (column : pystr).

Inductive piece :=
| Text (s : pystr)
| Val (v : json)
| Num (m : metric) (format_spec : pystr).

Definition fstring := list piece.

Definition API_BASE_URL_app : pystr := u "http://localhost:8000".
Definition API_BASE_URL_dhl : pystr := u "http://127.0.0.1:8000".

(** ** Exceptions *)

Inductive exn :=
| TransportError (msg : pystr)
    (** connection refused, timeout, DNS failure, ...: raised by
        [requests.get] / [requests.put] *)
| HTTPError (status : Z) (reason : pystr) (url : fstring)
    (** raised by [raise_for_status] *)
| JSONDecodeError (msg : pystr)
    (** raised by [response.json()] on a body that is not JSON *)
| AttributeError
| KeyError (k : pystr)
| TypeError
| ReError (msg : pystr)
    (** [re.error]: the pattern does not compile *)
| ValueError (msg : pystr)
    (** raised by pandas and plotly on data they refuse *)
| RerunException
    (** raised by [st.rerun()]: the runtime stops the run and starts the
        script again *).

(** [except requests.exceptions.RequestException]: with the pinned
    requests 2.31.0, [requests.exceptions.JSONDecodeError] derives from
    [InvalidJSONError], which derives from [RequestException]. *)
Definition is_RequestException (e : exn) : bool :=
  match e with
  | TransportError _ | HTTPError _ _ _ | JSONDecodeError _ => true
  | AttributeError | KeyError _ | TypeError | ReError _ | ValueError _
  | RerunException => false
  end.

(** [str(e)] of a request exception, in pieces. *)
Definition exn_str (e : exn) : fstring :=
  match e with
  | TransportError msg => [Text msg]
  | HTTPError status reason url =>
      [Val (JInt status);
       Text (if Z.ltb status 500 then u " Client Error: " else u " Server Error: ");
       Text reason; Text (u " for url: ")] ++ url
  | JSONDecodeError msg => [Text msg]
  | AttributeError => [Text (u "AttributeError")]
  | KeyError k => [Text k]
  | TypeError => [Text (u "TypeError")]
  | ReError msg => [Text msg]
  | ValueError msg => [Text msg]
  | RerunException => []
  end.

(** ** HTTP *)

Inductive body (A : Type) :=
| NotJson (decode_msg : pystr)
| Json (a : A).
Arguments NotJson {A} decode_msg.

Record response (A : Type) := {
  status_code : Z;
  reason : pystr;
  content : body A
}.

(** What the network does with one request. *)
Inductive http_result (A : Type) :=
| Failed (msg : pystr)
| Resp (r : response A).
Arguments Failed {A} msg.

Definition respond {A} (status : Z) (b : body A) : http_result A :=
  Resp {| status_code := status; reason := []; content := b |}.

(** ** Rows of the backend's tables (spec, data model) *)

Record shipment := {
  ShipmentID : Z;
  ShipmentName : pystr;
  ParcelName : pystr;
  CustomerName : pystr;
  Status : pystr;
  CurrentLocation : pystr
}.

Record customer := {
  CustomerID : Z;
  Name : pystr;
  Email : pystr;
  Phone : pystr;
  Address : pystr;
  customer_Type : pystr
}.

Record parcel := {
  ParcelID : Z;
  parcel_ParcelName : pystr;
  parcel_Type : pystr;
  Weight : json
}.

(** A row has its keys: it is a dictionary that is true. *)
#[export] Instance Truthy_customer : Truthy customer := fun _ => true.

(** ** The data of the Route Visualization page (dhl_logistics_app.py,
    lines 439-504)

    The figure and the table that the page builds are modelled as data:
    the traces added to the figure, in the order of [fig.add_trace], and
    the rows of the table.  Coordinates of route points are numbers of the
    backend and are kept as they come. *)

Module Routes.

Record point := { point_x : json; point_y : json }.

Record route := {
  shipmentId : Z;
  shipmentName : pystr;
  currentLocation : pystr;
  parcelType : pystr;
  weight : json;
  routePoints : list point
}.

Record edge := {
  source : Z;
  target : Z;
  edge_weight : json;
  shipment : pystr
}.

(** One [go.Scatter]. *)
Record scatter := {
  scatter_x : list json;
  scatter_y : list json;
  mode : pystr;
  text : list pystr;
  name : fstring
}.

(** [range(n)]: empty when [n] is not positive. *)
Definition range (n : Z) : list Z := map Z.of_nat (seq 0 (Z.to_nat n)).

(** [len(l)] *)
Definition len {A} (l : list A) : Z := Z.of_nat (List.length l).

(** [enumerate(l)] *)
Definition enumerate {A} (l : list A) : list (Z * A) := combine (range (len l)) l.

(** Lines 444-452. *)
Definition edges (active_routes : list route) : list edge :=
  flat_map
    (fun route =>
       map (fun i => {| source := i; target := i + 1;
                        edge_weight := weight route;
                        shipment := shipmentName route |})
           (range (len (routePoints route) - 1)))
    active_routes.

(** Lines 460-469: the marker of a location. *)
Definition node_trace (i : Z) (location : pystr) : scatter :=
  {| scatter_x := [JInt (i * 100)];
     scatter_y := [JInt (i mod 3 * 100)];
     mode := u "markers+text";
     text := [location];
     name := [Text location] |}.

(** Lines 472-482: the line of a route. *)
Definition route_trace (route : route) : scatter :=
  {| scatter_x := map point_x (routePoints route);
     scatter_y := map point_y (routePoints route);
     mode := u "lines";
     text := [];
     name := [Text (u "Route "); Val (JInt (shipmentId route));
              Text (u " - "); Text (shipmentName route)] |}.

Definition figure (active_routes : list route) (locations : list pystr)
  : list scatter :=
  map (fun il => node_trace (fst il) (snd il)) (enumerate locations)
  ++ map route_trace active_routes.

(** Lines 495-504: the rows of the Active Shipments table. *)
Definition active_df (active_routes : list route) : list (list (pystr * json)) :=
  map (fun route =>
         [(u "Shipment ID", JInt (shipmentId route));
          (u "Name", JStr (shipmentName route));
          (u "Location", JStr (currentLocation route));
          (u "Type", JStr (parcelType route));
          (u "Weight (kg)", weight route)])
      active_routes.

End Routes.

(** ** Events of a run *)

(** A figure is kept as the call that builds it and the data it is built
    from. *)
Inductive figure :=
| px_pie (data : json)               (** values='count', names='status' *)
| px_bar (data : json)               (** x='parcelType' *)
| px_histogram (rows : list parcel)  (** x="Weight", color="Type" *)
| px_scatter (data : json)           (** x="Efficiency", y="CustomerRating" *)
| go_Scatterpolar (data : json)      (** one trace for each row of the frame *)
| go_Scatter (traces : list Routes.scatter).

Inductive event :=
| http_get (url : fstring)
| http_put (url : fstring) (payload : json)
| st_markdown (html : fstring)
| st_write (text : fstring)
| st_error (msg : fstring)
| st_success (msg : fstring)
| st_plotly_chart (fig : figure)
| st_dataframe_shipments (columns : list pystr) (rows : list shipment)
| st_dataframe_customers (rows : list customer)
| st_dataframe_parcels (rows : list parcel)
| st_dataframe_rows (rows : list (list (pystr * json)))
| st_rerun.

(** ** Runs

    A run is the trace of its events and its outcome: the exception that
    escaped, or the value. *)

Definition run (A : Type) : Type := list event * (exn + A).

Definition ret {A} (a : A) : run A := ([], inr a).

Definition bind {A B} (m : run A) (k : A -> run B) : run B :=
  match m with
  | (t, inl e) => (t, inl e)
  | (t, inr a) => let (t', r) := k a in (t ++ t', r)
  end.

Definition emit (e : event) : run unit := ([e], inr tt).

Definition raise {A} (e : exn) : run A := ([], inl e).

(** [try: m  except requests.exceptions.RequestException as e: handler e] *)
Definition try_except_RequestException {A} (m : run A) (handler : exn -> run A)
  : run A :=
  match m with
  | (t, inl e) =>
      if is_RequestException e
      then let (t', r) := handler e in (t ++ t', r)
      else (t, inl e)
  | (t, inr a) => (t, inr a)
  end.

Declare Scope run_scope.
Delimit Scope run_scope with run.
Notation "x <- m ;; k" := (bind m (fun x => k))
  (at level 61, m at next level, right associativity) : run_scope.
Notation "m ;; k" := (bind m (fun _ => k))
  (at level 61, right associativity) : run_scope.
Open Scope run_scope.

Definition trace {A} (m : run A) : list event := fst m.
Definition outcome {A} (m : run A) : exn + A := snd m.

(** ** pandas, plotly and the display of Streamlit

    What these libraries do with a fetched body is theirs to say: a call
    returns or raises.  A call is kept by what it is given; [build] is the
    construction of a table or a chart from fetched data, up to its
    display. *)

Inductive call :=
| pd_DataFrame (data : json)
| compute (m : metric)
| build (element : event).

Class Libraries := { raises : call -> option exn }.

Definition library_call `{Libraries} (c : call) : run unit :=
  match raises c with
  | Some e => raise e
  | None => ret tt
  end.

(** The element is on the page when the libraries have built it. *)
Definition display `{Libraries} (element : event) : run unit :=
  library_call (build element) ;;
  emit element.

(** ** The requests library *)

Section Requests.
Context {A : Type}.

(** [requests.get(url)] *)
Definition requests_get (url : fstring) (net : http_result A)
  : run (response A) :=
  emit (http_get url) ;;
  match net with
  | Failed msg => raise (TransportError msg)
  | Resp r => ret r
  end.

(** [requests.put(url, ...)] *)
Definition requests_put (url : fstring) (payload : json)
    (net : http_result A) : run (response A) :=
  emit (http_put url payload) ;;
  match net with
  | Failed msg => raise (TransportError msg)
  | Resp r => ret r
  end.

(** [response.json()] *)
Definition response_json (r : response A) : run A :=
  match content r with
  | NotJson msg => raise (JSONDecodeError msg)
  | Json a => ret a
  end.

(** [response.raise_for_status()]: an [HTTPError] for 400..599. *)
Definition raise_for_status (url : fstring) (r : response A) : run unit :=
  if Z.leb 400 (status_code r) && Z.ltb (status_code r) 600
  then raise (HTTPError (status_code r) (reason r) url)
  else ret tt.
End Requests.

(** [v[k]] and [v.get(k, default)] on a parsed body. *)
Definition subscript (v : json) (k : pystr) : run json :=
  match v with
  | JObj kv =>
      match dict_get k kv with
      | Some w => ret w
      | None => raise (KeyError k)
      end
  | _ => raise TypeError
  end.

Definition get_default (v : json) (k : pystr) (default : json) : run json :=
  match v with
  | JObj kv =>
      match dict_get k kv with
      | Some w => ret w
      | None => ret default
      end
  | _ => raise AttributeError
  end.

(** * app.py: the parcel-tracking forms *)

Module App.

Definition API_BASE_URL : pystr := API_BASE_URL_app.

(** The presentation category of a status; [css_class] is the class
    name the source stores in [status_class]. *)
Inductive StatusCategory := Delivered | InTransit | Processing.

Definition css_class (c : StatusCategory) : pystr :=
  match c with
  | Delivered => u "status-delivered"
  | InTransit => u "status-transit"
  | Processing => u "status-processing"
  end.

Section Tabs.
Context {U : UnicodeCase}.

(** Lines 113-119, on the value of [parcel["Status"]]:
<<
    status_class = "status-processing"
    if str(parcel["Status"]).lower() == "delivered": ...
    elif "transit" in parcel["Status"].lower(): ...
>>
    For a value that is not a string, [str] gives "None", "True",
    "False", a numeral, or text in brackets or braces, never a spelling
    of "delivered"; the [elif] then calls [.lower()] on the value
    itself, which only a string has. *)
Definition status_class (status : json) : run StatusCategory :=
  match status with
  | JStr s =>
      if str_eqb (lower s) (u "delivered") then ret Delivered
      else if contains (u "transit") (lower s) then ret InTransit
      else ret Processing
  | _ => raise AttributeError
  end.

(** Customer Lookup tab, lines 79-95. *)
Definition customer_lookup (submit_customer : bool) (customer_id : Z)
    (net : http_result json) : run unit :=
  if submit_customer then
    try_except_RequestException
      (response <- requests_get
           [Text API_BASE_URL; Text (u "/customers/"); Val (JInt customer_id)]
           net ;;
       if Z.eqb (status_code response) 200 then
         customer <- response_json response ;;
         id <- subscript customer (u "CustomerID") ;;
         name <- subscript customer (u "Name") ;;
         address <- subscript customer (u "Address") ;;
         emit (st_markdown
                 [Text (u "<div class='card'><h3>Customer #"); Val id;
                  Text (u "</h3><p><strong>Name:</strong> "); Val name;
                  Text (u "</p><p><strong>Address:</strong> "); Val address;
                  Text (u "</p></div>")])
       else if Z.eqb (status_code response) 404 then
         emit (st_error [Text (u "Customer not found")])
       else
         b <- response_json response ;;
         detail <- get_default b (u "detail") (JStr (u "Unknown error")) ;;
         emit (st_error [Text (u "Error: "); Val detail]))
      (fun e => emit (st_error (Text (u "Connection error: ") :: exn_str e)))
  else ret tt.

(** Parcel Tracking tab, lines 105-130. *)
Definition parcel_tracking (submit_parcel : bool) (parcel_id : Z)
    (net : http_result json) : run unit :=
  if submit_parcel then
    try_except_RequestException
      (response <- requests_get
           [Text API_BASE_URL; Text (u "/parcels/"); Val (JInt parcel_id)]
           net ;;
       if Z.eqb (status_code response) 200 then
         parcel <- response_json response ;;
         status <- subscript parcel (u "Status") ;;
         cls <- status_class status ;;
         id <- subscript parcel (u "ParcelID") ;;
         cust <- subscript parcel (u "CustomerID") ;;
         emit (st_markdown
                 [Text (u "<div class='card'><h3>Parcel #"); Val id;
                  Text (u "</h3><p><strong>Customer ID:</strong> "); Val cust;
                  Text (u "</p><p><strong>Status:</strong> <span class='");
                  Text (css_class cls); Text (u "'>"); Val status;
                  Text (u "</span></p></div>")])
       else if Z.eqb (status_code response) 404 then
         emit (st_error [Text (u "Parcel not found")])
       else
         b <- response_json response ;;
         detail <- get_default b (u "detail") (JStr (u "Unknown error")) ;;
         emit (st_error [Text (u "Error: "); Val detail]))
      (fun e => emit (st_error (Text (u "Connection error: ") :: exn_str e)))
  else ret tt.

(** Update Status tab, lines 151-165. *)
Definition update_status (submit_status : bool) (update_parcel_id : Z)
    (status : pystr) (net : http_result json) : run unit :=
  if submit_status then
    try_except_RequestException
      (response <- requests_put
           [Text API_BASE_URL; Text (u "/parcels/"); Val (JInt update_parcel_id);
            Text (u "/status")]
           (JObj [(u "status", JStr status)])
           net ;;
       if Z.eqb (status_code response) 200 then
         emit (st_success [Text (u "Status updated successfully")])
       else
         b <- response_json response ;;
         detail <- get_default b (u "detail") (JStr (u "Unknown error")) ;;
         emit (st_error [Text (u "Error: "); Val detail]))
      (fun e => emit (st_error (Text (u "Connection error: ") :: exn_str e)))
  else ret tt.
End Tabs.

End App.

(** * The error taxonomy of the specification (section 4.1 and 7)

    These definitions follow the specification's words; the theorems
    compare them with the handlers above. *)

Module Spec.

Inductive ApiError :=
| ConnectionFailed (message : pystr)
| NotFound
| ServerError (statusCode : Z) (detailMessage : json).

Definition generic_message : json := JStr (u "Unknown error").

Definition is_2xx (status : Z) : bool :=
  Z.leb 200 status && Z.ltb status 300.

(** "detailMessage is extracted from a detail field in the JSON body if
    present, else a generic message". *)
Definition detail_message (b : body json) : json :=
  match b with
  | Json (JObj kv) =>
      match dict_get (u "detail") kv with
      | Some d => d
      | None => generic_message
      end
  | _ => generic_message
  end.

(** The error of an outcome; [None] on 2xx. *)
Definition api_error (net : http_result json) : option ApiError :=
  match net with
  | Failed msg => Some (ConnectionFailed msg)
  | Resp r =>
      if is_2xx (status_code r) then None
      else if Z.eqb (status_code r) 404 then Some NotFound
      else Some (ServerError (status_code r) (detail_message (content r)))
  end.

(** The message the Customer Lookup tab has for each kind of error. *)
Definition customer_message (e : ApiError) : fstring :=
  match e with
  | ConnectionFailed msg => [Text (u "Connection error: "); Text msg]
  | NotFound => [Text (u "Customer not found")]
  | ServerError _ detail => [Text (u "Error: "); Val detail]
  end.

(** Section 4.2, the rules in their order. *)
Inductive classify {U : UnicodeCase} (s : pystr) : App.StatusCategory -> Prop :=
| classify_delivered :
    lower s = u "delivered" -> classify s App.Delivered
| classify_transit :
    lower s <> u "delivered" -> substring (u "transit") (lower s) ->
    classify s App.InTransit
| classify_processing :
    lower s <> u "delivered" -> ~ substring (u "transit") (lower s) ->
    classify s App.Processing.

(** A case-insensitive occurrence of [term] in [field]. *)
Definition ci_substring {U : UnicodeCase} (term field : pystr) : Prop :=
  exists l m r, field = l ++ m ++ r /\ Forall2 (fun p c => ci_eqb p c = true) term m.

End Spec.

(** * dhl_logistics_app.py: the logistics dashboard *)

(** ** Regular expressions, as [Series.str.contains(pat, case=False)] uses
    them: [re.compile(pat, flags=re.IGNORECASE).search(cell)]

    A pattern made of ordinary characters and dots is interpreted here.
    Any other pattern goes to the engine, an interface: it either fails to
    compile ([re.error]) or yields a matcher. *)

Inductive atom :=
| Lit (c : N)
| AnyChar.

(** The special characters of [re] other than the dot. *)
Definition is_special (c : N) : bool :=
  existsb (N.eqb c) (u "\^$*+?{}[]|()").

Definition dot : N := 46.
Definition newline : N := 10.

Fixpoint parse_simple (pat : pystr) : option (list atom) :=
  match pat with
  | [] => Some []
  | c :: pat' =>
      if is_special c then None
      else option_map (cons (if N.eqb c dot then AnyChar else Lit c))
                      (parse_simple pat')
  end.

Class RegexEngine := {
  re_compile_other : pystr -> exn + (pystr -> bool)
}.

Section Regex.
Context {U : UnicodeCase} {R : RegexEngine}.

Definition atom_matches (a : atom) (c : N) : bool :=
  match a with
  | Lit p => ci_eqb p c
  | AnyChar => negb (N.eqb c newline)
  end.

(** A match of the atoms that begins at the head of the text. *)
Fixpoint match_here (atoms : list atom) (text : pystr) : bool :=
  match atoms, text with
  | [], _ => true
  | a :: atoms', c :: text' => atom_matches a c && match_here atoms' text'
  | _ :: _, [] => false
  end.

(** [search]: a match that begins anywhere. *)
Fixpoint re_search (atoms : list atom) (text : pystr) : bool :=
  match_here atoms text
  || match text with [] => false | _ :: text' => re_search atoms text' end.

Definition re_compile_ignorecase (pat : pystr) : exn + (pystr -> bool) :=
  match parse_simple pat with
  | Some atoms => inr (re_search atoms)
  | None => re_compile_other pat
  end.

(** [column.str.contains(pat, case=False)], on a column of text. *)
Definition str_contains (column : list pystr) (pat : pystr) : run (list bool) :=
  match re_compile_ignorecase pat with
  | inl e => raise e
  | inr matches => ret (map matches column)
  end.
End Regex.

(** [m1 | m2] and [df[mask]]. *)
Fixpoint mask_or (m1 m2 : list bool) : list bool :=
  match m1, m2 with
  | b1 :: m1', b2 :: m2' => (b1 || b2) :: mask_or m1' m2'
  | _, _ => []
  end.

Fixpoint select {A} (df : list A) (mask : list bool) : list A :=
  match df, mask with
  | row :: df', b :: mask' => if b then row :: select df' mask' else select df' mask'
  | _, _ => []
  end.

(** [Series.unique()]: first occurrences, in order. *)
Fixpoint unique (l : list pystr) : list pystr :=
  match l with
  | [] => []
  | x :: l' => x :: filter (fun y => negb (str_eqb x y)) (unique l')
  end.

(** A select box holds one of its options, the first one unless the user
    picks another; it holds [None] when there is no option. *)
Definition selectbox {A} (options : list A) (pick : nat) : option A :=
  match nth_error options pick with
  | Some a => Some a
  | None => hd_error options
  end.

Module Dhl.

Definition API_BASE_URL : pystr := API_BASE_URL_dhl.

(** What the backend answers to each request of the dashboard. *)
Record backend := {
  summary_api : http_result json;
  status_count_api : http_result json;
  efficiency_api : http_result json;
  analytics_api : http_result json;
  shipments_api : fstring -> http_result (list shipment);
  customers_api : http_result (list customer);
  customer_api : json -> http_result customer;
  parcels_api : http_result (list parcel);
  routes_api : http_result (list Routes.route);
  locations_api : http_result (list pystr);
  put_shipment_api : Z -> json -> http_result json
}.

Inductive page_name :=
| Dashboard | Shipments | Customers | Parcels | Analytics | RouteVisualization.

(** The widget values of one run. *)
Record inputs := {
  page : page_name;
  status_filter : pystr;          (** sidebar "Shipment Status" *)
  search_term : pystr;            (** the page's search box *)
  selected : nat;                 (** position picked in the page's select box *)
  type_filter_pick : nat;         (** position picked in "Filter by Type" *)
  new_status : pystr;
  new_location : option pystr;    (** [None]: the pre-filled value is kept *)
  update_clicked : bool           (** "Update Shipment" pressed *)
}.

Section Script.
Context {U : UnicodeCase} {R : RegexEngine} {L : Libraries}.

(** Lines 58-66.  The result [None] is Python's [None]; the bodies of the
    dashboard's endpoints are lists and objects. *)
Definition fetch_api_data {A} (endpoint : fstring) (net : http_result A)
  : run (option A) :=
  let url := Text API_BASE_URL :: endpoint in
  try_except_RequestException
    (response <- requests_get url net ;;
     raise_for_status url response ;;
     data <- response_json response ;;
     ret (Some data))
    (fun e =>
       emit (st_error (Text (u "Error fetching data from API: ") :: exn_str e)) ;;
       ret None).

(** Lines 68-79. *)
Definition update_shipment_status (shipment_id : Z) (status location : pystr)
    (net : http_result json) : run bool :=
  let url := [Text API_BASE_URL; Text (u "/shipments/"); Val (JInt shipment_id)] in
  try_except_RequestException
    (response <- requests_put url
         (JObj [(u "Status", JStr status); (u "CurrentLocation", JStr location)])
         net ;;
     raise_for_status url response ;;
     ret true)
    (fun e =>
       emit (st_error (Text (u "Error updating shipment: ") :: exn_str e)) ;;
       ret false).

(** [if data: block]: the block runs on a fetched value that is true. *)
Definition when_truthy {A} `{Truthy A} (data : option A) (block : A -> run unit)
  : run unit :=
  match data with
  | Some a => if truthy a then block a else ret tt
  | None => ret tt
  end.

Definition sub_header (title : pystr) : event :=
  st_markdown [Text (u "<div class='sub-header'>"); Text title; Text (u "</div>")].

Definition main_header (title : pystr) : event :=
  st_markdown [Text (u "<div class='main-header'>"); Text title; Text (u "</div>")].

Definition metric_label (label : pystr) : event :=
  st_markdown [Text (u "<div class='metric-label'>"); Text label;
               Text (u "</div>")].

(** A card of the first row, lines 111-114: the count is read from the
    summary when its line is formatted, after the card is opened. *)
Definition metric_card (summary : json) (key label : pystr) : run unit :=
  emit (st_markdown [Text (u "<div class='card'>")]) ;;
  value <- subscript summary key ;;
  emit (st_markdown [Text (u "<div class='metric-value'>"); Val value;
                     Text (u "</div>")]) ;;
  emit (metric_label label) ;;
  emit (st_markdown [Text (u "</div>")]).

(** Lines 137-153: the first chart, under [with col1:]. *)
Definition status_section (w : backend) : run unit :=
  emit (sub_header (u "Shipment Status")) ;;
  status_counts <- fetch_api_data [Text (u "/analytics/shipment-status-count")]
                     (status_count_api w) ;;
  when_truthy status_counts (fun status_counts =>
    library_call (pd_DataFrame status_counts) ;;
    display (st_plotly_chart (px_pie status_counts))).

(** Lines 155-171: the second chart, under [with col2:]. *)
Definition efficiency_section (w : backend) : run unit :=
  emit (sub_header (u "Efficiency by Parcel Type")) ;;
  efficiency_data <- fetch_api_data
                       [Text (u "/analytics/efficiency-by-parcel-type")]
                       (efficiency_api w) ;;
  when_truthy efficiency_data (fun efficiency_data =>
    library_call (pd_DataFrame efficiency_data) ;;
    display (st_plotly_chart (px_bar efficiency_data))).

(** Lines 173-183: the third row. *)
Definition recent_section (w : backend) : run unit :=
  emit (sub_header (u "Recent Shipments")) ;;
  shipments <- fetch_api_data [Text (u "/shipments?limit=5")]
                 (shipments_api w [Text (u "/shipments?limit=5")]) ;;
  when_truthy shipments (fun shipments =>
    display (st_dataframe_shipments
               [u "ShipmentID"; u "ShipmentName"; u "ParcelName";
                u "CustomerName"; u "Status"; u "CurrentLocation"]
               shipments)).

(** Lines 107-183: the block under [if summary:]. *)
Definition dashboard_body (w : backend) (summary : json) : run unit :=
  metric_card summary (u "total_shipments") (u "Total Shipments") ;;
  metric_card summary (u "active_shipments") (u "Active Shipments") ;;
  metric_card summary (u "delayed_shipments") (u "Delayed Shipments") ;;
  metric_card summary (u "completed_shipments") (u "Completed Shipments") ;;
  status_section w ;;
  efficiency_section w ;;
  recent_section w.

(** Lines 100-183.  The summary and the two aggregates are the bodies as
    they come. *)
Definition dashboard_page (w : backend) : run unit :=
  emit (main_header (u "DHL Logistics Dashboard")) ;;
  summary <- fetch_api_data [Text (u "/dashboard/summary")] (summary_api w) ;;
  when_truthy summary (dashboard_body w).

Definition all_shipment_columns : list pystr :=
  [u "ShipmentID"; u "ShipmentName"; u "ParcelName"; u "CustomerName";
   u "Status"; u "CurrentLocation"].

(** Lines 204-208: the search of the View Shipments tab. *)
Definition search_shipments (df_shipments : list shipment) (search_term : pystr)
  : run (list shipment) :=
  if str_truthy search_term then
    m1 <- str_contains (map ShipmentName df_shipments) search_term ;;
    m2 <- str_contains (map CustomerName df_shipments) search_term ;;
    ret (select df_shipments (mask_or m1 m2))
  else ret df_shipments.

(** Lines 192-210. *)
Definition view_shipments_tab (i : inputs) (w : backend) : run unit :=
  let status_param :=
    if str_eqb (status_filter i) (u "All") then []
    else u "?status=" ++ status_filter i in
  let endpoint := [Text (u "/shipments"); Text status_param] in
  shipments <- fetch_api_data endpoint (shipments_api w endpoint) ;;
  when_truthy shipments (fun df_shipments =>
    df_shipments <- search_shipments df_shipments (search_term i) ;;
    emit (st_dataframe_shipments all_shipment_columns df_shipments)).

(** Lines 242-245: the Update Shipment button. *)
Definition update_shipment_button (clicked : bool) (shipment_id : Z)
    (new_status new_location : pystr) (net : http_result json) : run unit :=
  if clicked then
    ok <- update_shipment_status shipment_id new_status new_location net ;;
    if ok then
      emit (st_success [Text (u "Shipment updated successfully!")]) ;;
      emit st_rerun ;;
      raise RerunException
    else ret tt
  else ret tt.

(** Lines 212-245. *)
Definition update_shipment_tab (i : inputs) (w : backend) : run unit :=
  shipments <- fetch_api_data [Text (u "/shipments")]
                 (shipments_api w [Text (u "/shipments")]) ;;
  when_truthy shipments (fun shipments =>
    match selectbox shipments (selected i) with
    | None => ret tt
    | Some chosen =>
        let shipment_id := ShipmentID chosen in
        match find (fun s => Z.eqb (ShipmentID s) shipment_id) shipments with
        | None => ret tt
        | Some current_shipment =>
            emit (st_write [Text (u "Current Status: **");
                            Text (Status current_shipment); Text (u "**")]) ;;
            emit (st_write [Text (u "Current Location: **");
                            Text (CurrentLocation current_shipment);
                            Text (u "**")]) ;;
            let location :=
              match new_location i with
              | Some l => l
              | None => CurrentLocation current_shipment
              end in
            update_shipment_button (update_clicked i) shipment_id
              (new_status i) location
              (put_shipment_api w shipment_id
                 (JObj [(u "Status", JStr (new_status i));
                        (u "CurrentLocation", JStr location)]))
        end
    end).

Definition shipments_page (i : inputs) (w : backend) : run unit :=
  emit (main_header (u "Shipment Management")) ;;
  view_shipments_tab i w ;;
  update_shipment_tab i w.

(** Lines 258-262: the search of the Customers page. *)
Definition search_customers (df_customers : list customer) (search_term : pystr)
  : run (list customer) :=
  if str_truthy search_term then
    m1 <- str_contains (map Name df_customers) search_term ;;
    m2 <- str_contains (map Email df_customers) search_term ;;
    ret (select df_customers (mask_or m1 m2))
  else ret df_customers.

Definition customer_section (i : inputs) (w : backend)
    (customers : list customer) : run unit :=
  df_customers <- search_customers customers (search_term i) ;;
  emit (st_dataframe_customers df_customers) ;;
  emit (sub_header (u "Customer Details")) ;;
  let selected_customer_id :=
    match selectbox (map CustomerID df_customers) (selected i) with
    | Some id => JInt id
    | None => JNull
    end in
  customer_detail <- fetch_api_data
                       [Text (u "/customers/"); Val selected_customer_id]
                       (customer_api w selected_customer_id) ;;
  when_truthy customer_detail (fun c =>
    emit (st_markdown [Text (u "<div class='card'>")]) ;;
    emit (st_write [Text (u "**Name:** "); Text (Name c)]) ;;
    emit (st_write [Text (u "**Email:** "); Text (Email c)]) ;;
    emit (st_write [Text (u "**Phone:** "); Text (Phone c)]) ;;
    emit (st_write [Text (u "**Address:** "); Text (Address c)]) ;;
    emit (st_write [Text (u "**Customer Type:** "); Text (customer_Type c)]) ;;
    emit (st_markdown [Text (u "</div>")]) ;;
    emit (st_markdown [Text (u "<div class='card'>")]) ;;
    emit (st_write [Text (u "**Customer Activity**")]) ;;
    emit (st_write [Text (u "Active Shipments: 3")]) ;;
    emit (st_write [Text (u "Completed Shipments: 12")]) ;;
    emit (st_write [Text (u "Average Rating: 4.5/5")]) ;;
    emit (st_markdown [Text (u "</div>")])).

(** Lines 248-298. *)
Definition customers_page (i : inputs) (w : backend) : run unit :=
  emit (main_header (u "Customer Management")) ;;
  customers <- fetch_api_data [Text (u "/customers")] (customers_api w) ;;
  when_truthy customers (customer_section i w).

Definition parcel_section (i : inputs) (parcels : list parcel) : run unit :=
  let df_parcels := parcels in
  let type_filter :=
    selectbox (u "All" :: unique (map parcel_Type df_parcels))
              (type_filter_pick i) in
  filtered_df <-
    (if str_truthy (search_term i) then
       m <- str_contains (map parcel_ParcelName df_parcels) (search_term i) ;;
       ret (select df_parcels m)
     else ret df_parcels) ;;
  let filtered_df :=
    match type_filter with
    | Some t =>
        if negb (str_eqb t (u "All"))
        then filter (fun p => str_eqb (parcel_Type p) t) filtered_df
        else filtered_df
    | None => filtered_df
    end in
  emit (st_dataframe_parcels filtered_df) ;;
  emit (sub_header (u "Parcel Weight Distribution")) ;;
  emit (st_plotly_chart (px_histogram df_parcels)).

(** Lines 301-342. *)
Definition parcels_page (i : inputs) (w : backend) : run unit :=
  emit (main_header (u "Parcel Management")) ;;
  parcels <- fetch_api_data [Text (u "/parcels")] (parcels_api w) ;;
  when_truthy parcels (parcel_section i).

(** Lines 394-422: the chart by parcel type.  Its rows ([rating * 20],
    [100 - efficiency]) are computed by numpy in floating point and are not
    interpreted: the chart is kept as the body it is built from. *)
Definition performance_section (w : backend) : run unit :=
  efficiency_data <- fetch_api_data
                       [Text (u "/analytics/efficiency-by-parcel-type")]
                       (efficiency_api w) ;;
  when_truthy efficiency_data (fun efficiency_data =>
    emit (sub_header (u "Performance by Parcel Type")) ;;
    library_call (pd_DataFrame efficiency_data) ;;
    display (st_plotly_chart (go_Scatterpolar efficiency_data))).

(** Lines 354-422: the block under [if analytics:].  The three metrics are
    numbers of pandas. *)
Definition analytics_body (w : backend) (analytics : json) : run unit :=
  library_call (pd_DataFrame analytics) ;;
  let avg_efficiency := series_mean analytics (u "Efficiency") in
  library_call (compute avg_efficiency) ;;
  emit (st_markdown [Text (u "<div class='card'>")]) ;;
  emit (st_markdown [Text (u "<div class='metric-value'>");
                     Num avg_efficiency (u ".1f"); Text (u "%</div>")]) ;;
  emit (metric_label (u "Average Efficiency")) ;;
  emit (st_markdown [Text (u "</div>")]) ;;
  let avg_rating := series_mean analytics (u "CustomerRating") in
  library_call (compute avg_rating) ;;
  emit (st_markdown [Text (u "<div class='card'>")]) ;;
  emit (st_markdown [Text (u "<div class='metric-value'>");
                     Num avg_rating (u ".1f"); Text (u "/5</div>")]) ;;
  emit (metric_label (u "Average Customer Rating")) ;;
  emit (st_markdown [Text (u "</div>")]) ;;
  let total_delays := series_sum analytics (u "Delays") in
  library_call (compute total_delays) ;;
  emit (st_markdown [Text (u "<div class='card'>")]) ;;
  emit (st_markdown [Text (u "<div class='metric-value'>");
                     Num total_delays []; Text (u "</div>")]) ;;
  emit (metric_label (u "Total Delays")) ;;
  emit (st_markdown [Text (u "</div>")]) ;;
  display (st_plotly_chart (px_scatter analytics)) ;;
  performance_section w.

(** Lines 345-422. *)
Definition analytics_page (w : backend) : run unit :=
  emit (main_header (u "Logistics Analytics")) ;;
  emit (sub_header (u "Shipment Performance Metrics")) ;;
  analytics <- fetch_api_data [Text (u "/analytics/shipments")]
                 (analytics_api w) ;;
  when_truthy analytics (analytics_body w).

(** Lines 425-506.  Both fetches are made before the guard
    [if active_routes and locations:].  The frame of the edges is built
    and is not used by the figure. *)
Definition route_visualization_page (w : backend) : run unit :=
  emit (main_header (u "Route Visualization")) ;;
  active_routes <- fetch_api_data [Text (u "/route/active-shipments")]
                     (routes_api w) ;;
  locations <- fetch_api_data [Text (u "/route/locations")] (locations_api w) ;;
  match active_routes, locations with
  | Some active_routes, Some locations =>
      if truthy active_routes && truthy locations then
        emit (sub_header (u "Active Shipment Routes")) ;;
        let edges_df := Routes.edges active_routes in
        emit (st_plotly_chart
                (go_Scatter (Routes.figure active_routes locations))) ;;
        emit (sub_header (u "Active Shipments")) ;;
        emit (st_dataframe_rows (Routes.active_df active_routes))
      else ret tt
  | _, _ => ret tt
  end.

(** The text of the footer, without its markup. *)
Definition footer_html : pystr :=
  u "2025 DHL Logistics Dashboard | Created with Streamlit".

Definition footer : run unit :=
  emit (st_markdown [Text (u "---")]) ;;
  emit (st_markdown [Text footer_html]).

(** One run of the script: the page picked in the sidebar, then the
    footer. *)
Definition script (i : inputs) (w : backend) : run unit :=
  match page i with
  | Dashboard => dashboard_page w
  | Shipments => shipments_page i w
  | Customers => customers_page i w
  | Parcels => parcels_page i w
  | Analytics => analytics_page w
  | RouteVisualization => route_visualization_page w
  end ;;
  footer.

(** After [st.rerun()] the runtime starts the script again with the same
    widget values; a button reads as not pressed. *)
Definition rerun_inputs (i : inputs) : inputs :=
  {| page := page i; status_filter := status_filter i;
     search_term := search_term i; selected := selected i;
     type_filter_pick := type_filter_pick i; new_status := new_status i;
     new_location := new_location i; update_clicked := false |}.

(** A user action: the run it starts and, when that run asks for it,
    the run that follows, against the backend as it is by then. *)
Definition interaction (i : inputs) (w w' : backend) : list (run unit) :=
  let first := script i w in
  match outcome first with
  | inl RerunException => [first; script (rerun_inputs i) w']
  | _ => [first]
  end.
End Script.
End Dhl.

(** ** Vocabulary of the statements *)

(** The network answered with a status that [raise_for_status] accepts and
    a body that parses to [a]. *)
Definition answers {A} (net : http_result A) (a : A) : Prop :=
  exists r, net = Resp r /\
            (Z.leb 400 (status_code r) && Z.ltb (status_code r) 600) = false /\
            content r = Json a.

(** The events by which a run asks for fresh data: a rerun of the script or
    a GET. *)
Definition is_refresh (e : event) : bool :=
  match e with
  | st_rerun | http_get _ => true
  | _ => false
  end.

Definition is_st_error (e : event) : bool :=
  match e with st_error _ => true | _ => false end.

(** A search term with no special character of [re]. *)
Definition literal_term (term : pystr) : bool :=
  forallb (fun c => negb (is_special c) && negb (N.eqb c dot)) term.

(** The requests and the confirmation of app.py. *)
Definition customer_url (customer_id : Z) : fstring :=
  [Text App.API_BASE_URL; Text (u "/customers/"); Val (JInt customer_id)].

Definition status_url (parcel_id : Z) : fstring :=
  [Text App.API_BASE_URL; Text (u "/parcels/"); Val (JInt parcel_id);
   Text (u "/status")].

Definition status_updated : event :=
  st_success [Text (u "Status updated successfully")].

(** An engine that compiles no pattern other than the interpreted ones,
    for concrete runs. *)
Definition simple_patterns_only : RegexEngine :=
  {| re_compile_other := fun _ => inl (ReError (u "unsupported pattern")) |}.

(** The requests and the messages of the dashboard. *)
Definition dhl_url (endpoint : fstring) : fstring :=
  Text Dhl.API_BASE_URL :: endpoint.

Definition fetch_error (e : exn) : event :=
  st_error (Text (u "Error fetching data from API: ") :: exn_str e).

Definition shipment_url (shipment_id : Z) : fstring :=
  [Text Dhl.API_BASE_URL; Text (u "/shipments/"); Val (JInt shipment_id)].

Definition shipment_payload (status location : pystr) : json :=
  JObj [(u "Status", JStr status); (u "CurrentLocation", JStr location)].

Definition update_error (e : exn) : event :=
  st_error (Text (u "Error updating shipment: ") :: exn_str e).

Definition shipment_updated : event :=
  st_success [Text (u "Shipment updated successfully!")].

Definition shipments_endpoint (status_filter : pystr) : fstring :=
  [Text (u "/shipments");
   Text (if str_eqb status_filter (u "All") then []
         else u "?status=" ++ status_filter)].

Definition recent_endpoint : fstring := [Text (u "/shipments?limit=5")].

(** Sample data for concrete runs. *)
Definition sample_shipment : shipment :=
  {| ShipmentID := 7; ShipmentName := u "abc"; ParcelName := u "box";
     CustomerName := u "Bob"; Status := u "In Transit";
     CurrentLocation := u "Leipzig" |}.

Definition sample_summary : json :=
  JObj [(u "total_shipments", JInt 12); (u "active_shipments", JInt 5);
        (u "delayed_shipments", JInt 1); (u "completed_shipments", JInt 6)].

Definition sample_status_counts : json :=
  JList [JObj [(u "status", JStr (u "Delivered")); (u "count", JInt 3)]].

Definition sample_backend (summary_net : http_result json)
    (put_net : http_result json) : Dhl.backend :=
  {| Dhl.summary_api := summary_net;
     Dhl.status_count_api := respond 200 (Json sample_status_counts);
     Dhl.efficiency_api := respond 200 (Json (JList []));
     Dhl.analytics_api := Failed [];
     Dhl.shipments_api := fun _ => respond 200 (Json [sample_shipment]);
     Dhl.customers_api := respond 200 (Json []);
     Dhl.customer_api := fun _ => respond 404 (NotJson []);
     Dhl.parcels_api := respond 200 (Json []);
     Dhl.routes_api := Failed [];
     Dhl.locations_api := Failed [];
     Dhl.put_shipment_api := fun _ _ => put_net |}.

(** Libraries that build what they are given, for concrete runs. *)
Definition sample_libraries : Libraries := {| raises := fun _ => None |}.

Definition sample_inputs (p : Dhl.page_name) (clicked : bool) : Dhl.inputs :=
  {| Dhl.page := p; Dhl.status_filter := u "All"; Dhl.search_term := [];
     Dhl.selected := 0; Dhl.type_filter_pick := 0;
     Dhl.new_status := u "Delivered"; Dhl.new_location := None;
     Dhl.update_clicked := clicked |}.

(** ** More vocabulary *)

Definition is_request (e : event) : bool :=
  match e with
  | http_get _ | http_put _ _ => true
  | _ => false
  end.

Definition is_put_or_rerun (e : event) : bool :=
  match e with
  | http_put _ _ | st_rerun => true
  | _ => false
  end.

(** The footer text of the dashboard. *)
Definition is_footer (e : event) : bool :=
  match e with
  | st_markdown [Text s] => str_eqb s Dhl.footer_html
  | _ => false
  end.

(** Every event of the run passes the test. *)
Definition all_events {A} (P : event -> bool) (m : run A) : Prop :=
  forallb P (trace m) = true.

(** The run raises nothing, or an exception of the given kind. *)
Definition raises_only {A} (Q : exn -> Prop) (m : run A) : Prop :=
  match outcome m with
  | inl e => Q e
  | inr _ => True
  end.

(** The exceptions of a body that has not the expected shape. *)
Definition shape_error (e : exn) : Prop :=
  e = AttributeError \/ e = TypeError \/ exists k, e = KeyError k.

(** A status that [raise_for_status] lets pass. *)
Definition accepted (status : Z) : bool :=
  negb (Z.leb 400 status && Z.ltb status 600).

Definition parcel_url (parcel_id : Z) : fstring :=
  [Text App.API_BASE_URL; Text (u "/parcels/"); Val (JInt parcel_id)].

Definition customer_card (id name address : json) : event :=
  st_markdown
    [Text (u "<div class='card'><h3>Customer #"); Val id;
     Text (u "</h3><p><strong>Name:</strong> "); Val name;
     Text (u "</p><p><strong>Address:</strong> "); Val address;
     Text (u "</p></div>")].

Definition sample_customer : customer :=
  {| CustomerID := 3; Name := u "Alice"; Email := u "alice@example.org";
     Phone := u "555"; Address := u "Bonn"; customer_Type := u "Business" |}.

Definition sample_parcel : parcel :=
  {| ParcelID := 4; parcel_ParcelName := u "Books"; parcel_Type := u "Standard";
     Weight := JInt 2 |}.

Definition sample_route : Routes.route :=
  {| Routes.shipmentId := 7; Routes.shipmentName := u "abc";
     Routes.currentLocation := u "Leipzig"; Routes.parcelType := u "Standard";
     Routes.weight := JInt 2;
     Routes.routePoints :=
       [ {| Routes.point_x := JInt 0; Routes.point_y := JInt 0 |};
         {| Routes.point_x := JInt 100; Routes.point_y := JInt 100 |};
         {| Routes.point_x := JInt 200; Routes.point_y := JInt 0 |} ] |}.

(** The events of a card of the dashboard's first row. *)
Definition card_events (value : json) (label : pystr) : list event :=
  [st_markdown [Text (u "<div class='card'>")];
   st_markdown [Text (u "<div class='metric-value'>"); Val value;
                Text (u "</div>")];
   Dhl.metric_label label;
   st_markdown [Text (u "</div>")]].

(** The summary holds its four counts. *)
Definition has_counts (kv : list (pystr * json)) : bool :=
  forallb (fun key => match dict_get key kv with Some _ => true | None => false end)
          [u "total_shipments"; u "active_shipments"; u "delayed_shipments";
           u "completed_shipments"].



(** The requests of the dashboard page, in the order of the source. *)
Definition summary_request : event :=
  http_get (dhl_url [Text (u "/dashboard/summary")]).

Definition section_requests : list event :=
  [http_get (dhl_url [Text (u "/analytics/shipment-status-count")]);
   http_get (dhl_url [Text (u "/analytics/efficiency-by-parcel-type")]);
   http_get (dhl_url recent_endpoint)].

Definition requests {A} (m : run A) : list event := filter is_request (trace m).

(** The run asks for the resources of the list, in its order, and for
    nothing else: for all of them when it reaches its end, for the first
    ones when an exception cuts it short. *)
Definition asks {A} (l : list event) (m : run A) : Prop :=
  (exists k, requests m = firstn k l) /\
  (forall a, outcome m = inr a -> requests m = l).

(** The requests of the Analytics and Route Visualization pages. *)
Definition analytics_request : event :=
  http_get (dhl_url [Text (u "/analytics/shipments")]).

Definition efficiency_request : event :=
  http_get (dhl_url [Text (u "/analytics/efficiency-by-parcel-type")]).

Definition routes_request : event :=
  http_get (dhl_url [Text (u "/route/active-shipments")]).

Definition locations_request : event :=
  http_get (dhl_url [Text (u "/route/locations")]).

(** What is on the page apart from the requests and the messages of the
    fetches. *)
Definition is_fetch_event (e : event) : bool := is_request e || is_st_error e.

Definition elements {A} (m : run A) : list event :=
  filter (fun e => negb (is_fetch_event e)) (trace m).

(** * Properties *)

(** ** Strings *)

Lemma str_eqb_eq (a b : pystr) : str_eqb a b = true <-> a = b.
Proof.
  revert b; induction a as [|x a IH]; intros [|y b]; simpl; split;
    try discriminate; try reflexivity.
  - rewrite andb_true_iff, N.eqb_eq, IH. intros [-> ->]; reflexivity.
  - intros E; injection E as -> ->. rewrite N.eqb_refl. simpl. now apply IH.
Qed.

Lemma str_eqb_neq (a b : pystr) : str_eqb a b = false <-> a <> b.
Proof.
  rewrite <- str_eqb_eq. destruct (str_eqb a b); split; congruence.
Qed.

Lemma startswith_spec (needle hay : pystr) :
  startswith needle hay = true <-> exists r, hay = needle ++ r.
Proof.
  revert hay; induction needle as [|n needle IH]; intros hay; simpl.
  - split; [intros _; now exists hay | reflexivity].
  - destruct hay as [|h hay].
    + split; [discriminate | intros [r E]; discriminate].
    + rewrite andb_true_iff, N.eqb_eq, IH. split.
      * intros [-> [r ->]]. now exists r.
      * intros [r E]. injection E as -> ->. split; [reflexivity | now exists r].
Qed.

Lemma contains_spec (needle hay : pystr) :
  contains needle hay = true <-> substring needle hay.
Proof.
  unfold substring. induction hay as [|c hay IH]; simpl.
  - rewrite orb_false_r, startswith_spec. split.
    + intros [r E]. now exists [], r.
    + intros [l [r E]]. destruct l; [now exists r|discriminate].
  - rewrite orb_true_iff, startswith_spec, IH. split.
    + intros [[r E] | [l [r E]]].
      * now exists [], r.
      * exists (c :: l), r. simpl. now rewrite E.
    + intros [[|c' l] [r E]].
      * left. now exists r.
      * right. injection E as _ E. now exists l, r.
Qed.

(** ** The status classifier (app.py) *)

Section Classifier.
Context {U : UnicodeCase}.

Lemma status_class_eval (s : pystr) :
  App.status_class (JStr s) =
  ret (if str_eqb (lower s) (u "delivered") then App.Delivered
       else if contains (u "transit") (lower s) then App.InTransit
       else App.Processing).
Proof.
  unfold App.status_class.
  destruct (str_eqb _ _); [reflexivity|]. now destruct (contains _ _).
Qed.

(** The word "delivered" has no occurrence of "transit". *)
Lemma delivered_excludes_transit (t : pystr) :
  t = u "delivered" -> contains (u "transit") t = false.
Proof. intros ->. reflexivity. Qed.

Lemma status_class_iff_classify (s : pystr) (c : App.StatusCategory) :
  App.status_class (JStr s) = ret c <-> Spec.classify s c.
Proof.
  rewrite status_class_eval. unfold ret. split.
  - intros E.
    destruct (str_eqb (lower s) (u "delivered")) eqn:D.
    + injection E as <-. constructor. now apply str_eqb_eq.
    + apply str_eqb_neq in D.
      destruct (contains (u "transit") (lower s)) eqn:T; injection E as <-.
      * constructor; [assumption | now apply contains_spec].
      * constructor; [assumption|]. rewrite <- contains_spec. congruence.
  - intros [D | D T | D T].
    + apply str_eqb_eq in D. now rewrite D.
    + apply str_eqb_neq in D. apply contains_spec in T. now rewrite D, T.
    + apply str_eqb_neq in D. rewrite <- contains_spec in T.
      rewrite D. destruct (contains _ _); [now elim T | reflexivity].
Qed.

(** C1.  The classifier computes the classification of section 4.2: it
    returns Delivered exactly when the lower-cased status is "delivered",
    InTransit exactly when that fails and the lower-cased status has an
    occurrence of "transit", and Processing in every other case; the
    eight statuses that the specification lists are classified as it
    says. *)
Theorem status_class_classifies :
  (forall s c, App.status_class (JStr s) = ret c <-> Spec.classify s c) /\
  App.status_class (JStr (u "Delivered")) = ret App.Delivered /\
  App.status_class (JStr (u "delivered")) = ret App.Delivered /\
  App.status_class (JStr (u "DELIVERED")) = ret App.Delivered /\
  App.status_class (JStr (u "In Transit")) = ret App.InTransit /\
  App.status_class (JStr (u "out for transit hub")) = ret App.InTransit /\
  App.status_class (JStr (u "Processing")) = ret App.Processing /\
  App.status_class (JStr (u "")) = ret App.Processing /\
  App.status_class (JStr (u "unknown-xyz")) = ret App.Processing.
Proof.
  split; [exact status_class_iff_classify | repeat split; reflexivity].
Qed.

(** X1.  The Parcel Tracking tab puts the class of that category on the status
    of the parcel it shows. *)
Lemma parcel_tracking_badge (parcel_id : Z) (kv : list (pystr * json))
    (s : pystr) (id cust : json) (c : App.StatusCategory) :
  dict_get (u "Status") kv = Some (JStr s) ->
  dict_get (u "ParcelID") kv = Some id ->
  dict_get (u "CustomerID") kv = Some cust ->
  Spec.classify s c ->
  App.parcel_tracking true parcel_id (respond 200 (Json (JObj kv))) =
  ([http_get [Text App.API_BASE_URL; Text (u "/parcels/"); Val (JInt parcel_id)];
    st_markdown
      [Text (u "<div class='card'><h3>Parcel #"); Val id;
       Text (u "</h3><p><strong>Customer ID:</strong> "); Val cust;
       Text (u "</p><p><strong>Status:</strong> <span class='");
       Text (App.css_class c); Text (u "'>"); Val (JStr s);
       Text (u "</span></p></div>")]], inr tt).
Proof.
  intros S I C K. apply status_class_iff_classify in K.
  unfold App.parcel_tracking, requests_get, response_json, subscript.
  cbn -[App.status_class]. rewrite S. cbn -[App.status_class]. rewrite K.
  cbn. rewrite I. cbn. rewrite C. reflexivity.
Qed.

(** C2.  A status that passes the "delivered" test is classified
    Delivered, whatever the substring test would say of it: the
    "delivered" test is evaluated first and decides alone.  The tie itself
    never arises: the test is an equality, and the word "delivered" has no
    occurrence of "transit". *)
Theorem delivered_check_comes_first (s : pystr) :
  lower s = u "delivered" ->
  App.status_class (JStr s) = ret App.Delivered
  /\ ~ substring (u "transit") (lower s).
Proof.
  intros D. split.
  - rewrite status_class_eval. apply str_eqb_eq in D. now rewrite D.
  - rewrite <- contains_spec, (delivered_excludes_transit D). discriminate.
Qed.

(** X24.  A status whose lower-cased text has an occurrence of "transit"
    never passes the "delivered" test and is classified InTransit,
    whatever else it contains: "Delivered to transit hub" is InTransit. *)
Theorem transit_occurrence_is_in_transit (s : pystr) :
  substring (u "transit") (lower s) ->
  lower s <> u "delivered" /\ App.status_class (JStr s) = ret App.InTransit.
Proof.
  intros T. apply contains_spec in T.
  assert (D : lower s <> u "delivered").
  { intros E. apply delivered_excludes_transit in E. congruence. }
  split; [assumption|].
  rewrite status_class_eval. apply str_eqb_neq in D. now rewrite D, T.
Qed.

(** C3.  On every string the classifier returns one category and only
    one, raises nothing and has no effect. *)
Theorem status_class_total (s : pystr) :
  exists! c, App.status_class (JStr s) = ([], inr c).
Proof.
  rewrite status_class_eval. unfold ret.
  eexists. split; [reflexivity|]. intros c E. now injection E.
Qed.

(** Outside the strings the classifier raises: the totality above is a
    fact about strings. *)
Lemma status_class_not_a_string (v : json) :
  (forall s, v <> JStr s) -> App.status_class v = raise AttributeError.
Proof. intros N. destruct v; try reflexivity. now elim (N s). Qed.
End Classifier.

Lemma delivered_check_comes_first_witness :
  App.status_class (U := ascii_case) (JStr (u "DELIVERED")) = ret App.Delivered
  /\ ~ substring (u "transit") (lower (U := ascii_case) (u "DELIVERED")).
Proof.
  apply (delivered_check_comes_first (U := ascii_case) (u "DELIVERED")).
  reflexivity.
Defined.

Lemma transit_occurrence_is_in_transit_witness :
  lower (U := ascii_case) (u "Delivered to transit hub") <> u "delivered" /\
  App.status_class (U := ascii_case) (JStr (u "Delivered to transit hub"))
  = ret App.InTransit.
Proof.
  apply (transit_occurrence_is_in_transit (U := ascii_case)
           (u "Delivered to transit hub")).
  apply contains_spec. reflexivity.
Defined.

(** ** Runs *)

Lemma trace_bind_l {A B} (m : run A) (k : A -> run B) (e : event) :
  In e (trace m) -> In e (trace (bind m k)).
Proof.
  destruct m as [t [x|a]]; simpl; [trivial|].
  destruct (k a) as [t' r]; simpl. intros H. apply in_or_app. now left.
Qed.

Lemma trace_bind_r {A B} (m : run A) (k : A -> run B) (a : A) (e : event) :
  outcome m = inr a -> In e (trace (k a)) -> In e (trace (bind m k)).
Proof.
  destruct m as [t [x|a']]; simpl; [discriminate|].
  intros E; injection E as ->.
  destruct (k a) as [t' r]; simpl. intros H. apply in_or_app. now right.
Qed.

(** ** The handlers of app.py *)

Section AppHandlers.
Context {U : UnicodeCase}.

(** X2.  Where the body of an error response is an object, or is not read
    (transport failure, 404), the Customer Lookup tab follows the
    taxonomy of the specification. *)
Lemma customer_lookup_follows_taxonomy
    (customer_id : Z) (net : http_result json) (e : Spec.ApiError) :
  Spec.api_error net = Some e ->
  match net with
  | Failed _ => True
  | Resp r => status_code r = 404%Z \/ exists kv, content r = Json (JObj kv)
  end ->
  App.customer_lookup true customer_id net =
  ([http_get (customer_url customer_id); st_error (Spec.customer_message e)],
   inr tt).
Proof.
  destruct net as [msg | [s rs c]]; simpl.
  - intros E _. injection E as <-. reflexivity.
  - unfold Spec.is_2xx. intros E B.
    unfold App.customer_lookup, requests_get, response_json; simpl.
    destruct (Z.eqb_spec s 200) as [->|N200]; [discriminate E|].
    destruct (Z.leb 200 s && Z.ltb s 300); [discriminate E|].
    destruct (Z.eqb_spec s 404) as [->|N404].
    + injection E as <-. reflexivity.
    + injection E as <-.
      destruct B as [B | [kv ->]]; [contradiction|]. simpl.
      destruct (dict_get (u "detail") kv); reflexivity.
Qed.

(** C4, at the failing inputs.  A 500 whose body is not JSON is reported
    as a connection error, where the specification has
    [ServerError 500] with the generic message; a 500 whose body is JSON
    but not an object ends the run with an [AttributeError] and no
    message at all. *)
Theorem customer_lookup_error_body_not_an_object
    (customer_id : Z) (decode_msg : pystr) :
  App.customer_lookup true customer_id (respond 500 (NotJson decode_msg)) =
    ([http_get (customer_url customer_id);
      st_error [Text (u "Connection error: "); Text decode_msg]], inr tt)
  /\ Spec.api_error (respond 500 (NotJson decode_msg)) =
       Some (Spec.ServerError 500 Spec.generic_message)
  /\ [Text (u "Connection error: "); Text decode_msg] <>
       Spec.customer_message (Spec.ServerError 500 Spec.generic_message)
  /\ App.customer_lookup true customer_id (respond 500 (Json (JList []))) =
       ([http_get (customer_url customer_id)], inl AttributeError).
Proof.
  repeat split. simpl. intros E. injection E as E _. discriminate E.
Qed.

Lemma update_status_cases (id : Z) (status : pystr) (r : response json) :
  App.update_status true id status (Resp r) =
  let put := http_put (status_url id) (JObj [(u "status", JStr status)]) in
  if Z.eqb (status_code r) 200 then ([put; status_updated], inr tt)
  else match content r with
       | NotJson msg =>
           ([put; st_error [Text (u "Connection error: "); Text msg]], inr tt)
       | Json (JObj kv) =>
           ([put; st_error [Text (u "Error: ");
                            Val match dict_get (u "detail") kv with
                                | Some d => d
                                | None => JStr (u "Unknown error")
                                end]], inr tt)
       | Json _ => ([put], inl AttributeError)
       end.
Proof.
  destruct r as [s rs c]. unfold App.update_status, requests_put, response_json.
  simpl. destruct (Z.eqb s 200); [reflexivity|].
  destruct c as [msg | v]; [reflexivity|].
  destruct v; try reflexivity. simpl.
  destruct (dict_get (u "detail") kv); reflexivity.
Qed.

(** C8, at the failing input.  The Update Status tab gets a 500 whose
    body is the JSON list []: the run ends with an uncaught
    [AttributeError] after the request, and no message is displayed. *)
Theorem update_status_error_body_is_a_list (id : Z) (status : pystr) :
  App.update_status true id status (respond 500 (Json (JList []))) =
    ([http_put (status_url id) (JObj [(u "status", JStr status)])],
     inl AttributeError)
  /\ Spec.api_error (respond 500 (Json (JList []))) =
       Some (Spec.ServerError 500 Spec.generic_message)
  /\ existsb is_st_error
       (trace (App.update_status true id status (respond 500 (Json (JList [])))))
     = false.
Proof. repeat split. Qed.

(** Apart from such bodies, every failure of the update is shown by one
    message, after one request, and the run goes on. *)
Lemma update_status_failure_is_shown
    (id : Z) (status : pystr) (net : http_result json) :
  match net with
  | Failed _ => True
  | Resp r => status_code r <> 200%Z /\
              match content r with
              | NotJson _ | Json (JObj _) => True
              | Json _ => False
              end
  end ->
  exists msg,
    App.update_status true id status net =
    ([http_put (status_url id) (JObj [(u "status", JStr status)]);
      st_error msg], inr tt).
Proof.
  destruct net as [m | r].
  - intros _. eexists. reflexivity.
  - intros [N B]. rewrite update_status_cases. simpl.
    apply Z.eqb_neq in N. rewrite N.
    destruct (content r) as [msg | v]; [eexists; reflexivity|].
    destruct v; try contradiction. eexists; reflexivity.
Qed.
End AppHandlers.

(** ** The helper functions of the dashboard *)

Lemma is_2xx_accepted (s : Z) :
  Spec.is_2xx s = true -> (Z.leb 400 s && Z.ltb s 600) = false.
Proof.
  unfold Spec.is_2xx. rewrite andb_true_iff, Z.leb_le, Z.ltb_lt. intros [_ H].
  apply andb_false_iff. left. apply Z.leb_gt. lia.
Qed.

Lemma fetch_api_data_cases {A} (endpoint : fstring) (net : http_result A) :
  Dhl.fetch_api_data endpoint net =
  let url := dhl_url endpoint in
  match net with
  | Failed msg => ([http_get url; fetch_error (TransportError msg)], inr None)
  | Resp r =>
      if Z.leb 400 (status_code r) && Z.ltb (status_code r) 600
      then ([http_get url;
             fetch_error (HTTPError (status_code r) (reason r) url)], inr None)
      else match content r with
           | NotJson msg =>
               ([http_get url; fetch_error (JSONDecodeError msg)], inr None)
           | Json a => ([http_get url], inr (Some a))
           end
  end.
Proof.
  unfold Dhl.fetch_api_data, requests_get, raise_for_status, response_json.
  destruct net as [msg | [s rs c]]; simpl; [reflexivity|].
  destruct (Z.leb 400 s && Z.ltb s 600); [reflexivity|].
  destruct c; reflexivity.
Qed.

(** The fetch never raises; what is answered is what it returns, with no
    message. *)
Lemma fetch_api_data_total {A} (endpoint : fstring) (net : http_result A) :
  exists t o,
    Dhl.fetch_api_data endpoint net = (http_get (dhl_url endpoint) :: t, inr o) /\
    (forall a, answers net a -> t = [] /\ o = Some a) /\
    ((forall a, ~ answers net a) -> o = None /\ exists e, t = [fetch_error e]).
Proof.
  rewrite fetch_api_data_cases. simpl. destruct net as [msg | r].
  - do 2 eexists. split; [reflexivity|]. split.
    + intros a (r & E & _). discriminate E.
    + intros _. split; [reflexivity | eexists; reflexivity].
  - destruct (Z.leb 400 (status_code r) && Z.ltb (status_code r) 600) eqn:S.
    + do 2 eexists. split; [reflexivity|]. split.
      * intros a (r' & E & S' & _). injection E as <-. congruence.
      * intros _. split; [reflexivity | eexists; reflexivity].
    + destruct (content r) as [msg | a] eqn:C.
      * do 2 eexists. split; [reflexivity|]. split.
        -- intros a (r' & E & _ & C'). injection E as <-. congruence.
        -- intros _. split; [reflexivity | eexists; reflexivity].
      * do 2 eexists. split; [reflexivity|]. split.
        -- intros a' (r' & E & _ & C'). injection E as <-.
           rewrite C in C'. injection C' as <-. now split.
        -- intros N. elim (N a). now exists r.
Qed.

Lemma update_shipment_status_cases
    (id : Z) (status location : pystr) (net : http_result json) :
  Dhl.update_shipment_status id status location net =
  let put := http_put (shipment_url id) (shipment_payload status location) in
  match net with
  | Failed msg => ([put; update_error (TransportError msg)], inr false)
  | Resp r =>
      if Z.leb 400 (status_code r) && Z.ltb (status_code r) 600
      then ([put; update_error
                    (HTTPError (status_code r) (reason r) (shipment_url id))],
            inr false)
      else ([put], inr true)
  end.
Proof.
  unfold Dhl.update_shipment_status, requests_put, raise_for_status.
  destruct net as [msg | [s rs c]]; simpl; [reflexivity|].
  destruct (Z.leb 400 s && Z.ltb s 600); reflexivity.
Qed.

(** Every failure of the shipment update is shown by one message after one
    request; the helper returns [False] and raises nothing. *)
Lemma update_shipment_status_failure_is_shown
    (id : Z) (status location : pystr) (net : http_result json) :
  outcome (Dhl.update_shipment_status id status location net) <> inr true ->
  exists e,
    Dhl.update_shipment_status id status location net =
    ([http_put (shipment_url id) (shipment_payload status location);
      update_error e], inr false).
Proof.
  rewrite update_shipment_status_cases. simpl. destruct net as [msg | r].
  - intros _. eexists; reflexivity.
  - destruct (Z.leb 400 (status_code r) && Z.ltb (status_code r) 600).
    + intros _. eexists; reflexivity.
    + intros N. now elim N.
Qed.

(** ** Success statuses *)

(** C5, as amended.  [fetch_api_data] returns the parsed body of every 2xx
    response whose body parses, with no message; the Update Status tab of
    app.py confirms on status 200 and on no other status. *)
Theorem success_statuses :
  (forall A (endpoint : fstring) (r : response A) (a : A),
      Spec.is_2xx (status_code r) = true -> content r = Json a ->
      Dhl.fetch_api_data endpoint (Resp r) =
      ([http_get (dhl_url endpoint)], inr (Some a)))
  /\ (forall (id : Z) (status : pystr) (r : response json),
         status_code r = 200%Z ->
         App.update_status true id status (Resp r) =
         ([http_put (status_url id) (JObj [(u "status", JStr status)]);
           status_updated], inr tt))
  /\ (forall (id : Z) (status : pystr) (r : response json),
         status_code r <> 200%Z ->
         ~ In status_updated (trace (App.update_status true id status (Resp r)))).
Proof.
  split; [|split].
  - intros A endpoint r a S C. rewrite fetch_api_data_cases. simpl.
    now rewrite (is_2xx_accepted _ S), C.
  - intros id status r S. rewrite update_status_cases. simpl. now rewrite S.
  - intros id status r S. rewrite update_status_cases. simpl.
    apply Z.eqb_neq in S. rewrite S.
    destruct (content r) as [msg | v]; simpl.
    + intros [E | [E | []]]; discriminate E.
    + destruct v; simpl; intros H;
        repeat (destruct H as [H | H]; [discriminate H|]); exact H.
Qed.

Lemma success_statuses_witness :
  Dhl.fetch_api_data recent_endpoint (respond 204 (Json [sample_shipment])) =
    ([http_get (dhl_url recent_endpoint)], inr (Some [sample_shipment]))
  /\ App.update_status true 1 (u "Delivered") (respond 200 (NotJson [])) =
       ([http_put (status_url 1) (JObj [(u "status", JStr (u "Delivered"))]);
         status_updated], inr tt)
  /\ ~ In status_updated
         (trace (App.update_status true 1 (u "Delivered")
                   (respond 201 (Json (JObj []))))).
Proof.
  split; [|split].
  - apply (proj1 success_statuses); reflexivity.
  - apply (proj1 (proj2 success_statuses)); reflexivity.
  - apply (proj2 (proj2 success_statuses)). simpl. discriminate.
Defined.

(** C5, the counterexample.  The Update Status tab takes the error branch
    on the 2xx status 201. *)
Lemma update_status_201_is_an_error :
  ~ (forall (id : Z) (status : pystr) (r : response json),
        Spec.is_2xx (status_code r) = true ->
        In status_updated (trace (App.update_status true id status (Resp r)))).
Proof.
  intros H.
  specialize (H 1%Z (u "Delivered")
                {| status_code := 201; reason := []; content := Json (JObj []) |}
                eq_refl).
  simpl in H. destruct H as [H | [H | []]]; discriminate H.
Qed.

(** ** The update workflows *)

Section Updates.
Context {U : UnicodeCase} {R : RegexEngine} {L : Libraries}.

Lemma fetch_api_data_requests {A} (endpoint : fstring) (net : http_result A) :
  In (http_get (dhl_url endpoint)) (trace (Dhl.fetch_api_data endpoint net)).
Proof.
  destruct (fetch_api_data_total endpoint net) as (t & o & E & _).
  rewrite E. now left.
Qed.

(** Every run of the Shipments page asks for the shipment list. *)
Lemma shipments_page_fetches_list (i : Dhl.inputs) (w : Dhl.backend) :
  Dhl.page i = Dhl.Shipments ->
  In (http_get (dhl_url (shipments_endpoint (Dhl.status_filter i))))
     (trace (Dhl.script i w)).
Proof.
  intros P. unfold Dhl.script. rewrite P. apply trace_bind_l.
  unfold Dhl.shipments_page. apply trace_bind_r with (a := tt); [reflexivity|].
  apply trace_bind_l. unfold Dhl.view_shipments_tab. apply trace_bind_l.
  apply fetch_api_data_requests.
Qed.

(** C7, as amended.  When the PUT of the Update Shipment button returns a
    2xx status, the handler shows the confirmation and calls [st.rerun()];
    the script then runs again and asks the backend for the shipment list.
    The Update Status tab of app.py shows its confirmation on status 200
    and asks for nothing more. *)
Theorem accepted_update :
  (forall (id : Z) (status location : pystr) (r : response json),
      Spec.is_2xx (status_code r) = true ->
      Dhl.update_shipment_button true id status location (Resp r) =
      ([http_put (shipment_url id) (shipment_payload status location);
        shipment_updated; st_rerun], inl RerunException))
  /\ (forall (i : Dhl.inputs) (w w' : Dhl.backend),
         Dhl.page i = Dhl.Shipments ->
         outcome (Dhl.script i w) = inl RerunException ->
         Dhl.interaction i w w' =
           [Dhl.script i w; Dhl.script (Dhl.rerun_inputs i) w'] /\
         In (http_get (dhl_url (shipments_endpoint (Dhl.status_filter i))))
            (trace (Dhl.script (Dhl.rerun_inputs i) w')))
  /\ (forall (id : Z) (status : pystr) (r : response json),
         status_code r = 200%Z ->
         App.update_status true id status (Resp r) =
         ([http_put (status_url id) (JObj [(u "status", JStr status)]);
           status_updated], inr tt)).
Proof.
  split; [|split].
  - intros id status location r S. unfold Dhl.update_shipment_button.
    rewrite update_shipment_status_cases. simpl.
    now rewrite (is_2xx_accepted _ S).
  - intros i w w' P O. split.
    + unfold Dhl.interaction. now rewrite O.
    + now apply (shipments_page_fetches_list (Dhl.rerun_inputs i) w').
  - intros id status r S. rewrite update_status_cases. simpl. now rewrite S.
Qed.
End Updates.

Lemma accepted_update_witness :
  let i := sample_inputs Dhl.Shipments true in
  let w := sample_backend (Failed []) (respond 200 (Json JNull)) in
  let script := Dhl.script (U := ascii_case) (R := simple_patterns_only)
                  (L := sample_libraries) in
  Dhl.update_shipment_button true 7 (u "Delivered") (u "Leipzig")
    (respond 200 (Json JNull)) =
    ([http_put (shipment_url 7) (shipment_payload (u "Delivered") (u "Leipzig"));
      shipment_updated; st_rerun], inl RerunException)
  /\ (Dhl.interaction (U := ascii_case) (R := simple_patterns_only)
        (L := sample_libraries) i w w =
        [script i w; script (Dhl.rerun_inputs i) w] /\
      In (http_get (dhl_url (shipments_endpoint (Dhl.status_filter i))))
         (trace (script (Dhl.rerun_inputs i) w)))
  /\ App.update_status true 1 (u "Delivered") (respond 200 (Json JNull)) =
       ([http_put (status_url 1) (JObj [(u "status", JStr (u "Delivered"))]);
         status_updated], inr tt).
Proof.
  pose proof (accepted_update (U := ascii_case) (R := simple_patterns_only)
                (L := sample_libraries)) as (A & B & C).
  split; [|split].
  - apply A. reflexivity.
  - apply B; reflexivity.
  - apply C. reflexivity.
Defined.

(** C7, the counterexample.  After the accepted update (status 200) the
    Update Status tab of app.py asks for no refresh: its run has neither a
    rerun nor a GET. *)
Lemma update_status_requests_no_refresh :
  ~ (forall (id : Z) (status : pystr) (r : response json),
        Spec.is_2xx (status_code r) = true ->
        existsb is_refresh (trace (App.update_status true id status (Resp r)))
        = true).
Proof.
  intros H.
  specialize (H 1%Z (u "Delivered")
                {| status_code := 200; reason := []; content := Json JNull |}
                eq_refl).
  discriminate H.
Qed.

(** ** The search box *)

Lemma select_mask_or {A} (f g : A -> bool) (df : list A) :
  select df (mask_or (map f df) (map g df)) = filter (fun row => f row || g row) df.
Proof.
  induction df as [|row df IH]; simpl; [reflexivity|].
  rewrite IH. reflexivity.
Qed.

Lemma parse_simple_literal (term : pystr) :
  literal_term term = true -> parse_simple term = Some (map Lit term).
Proof.
  induction term as [|c term IH]; simpl; [reflexivity|].
  rewrite !andb_true_iff, !negb_true_iff. intros [[S D] L].
  rewrite S, D, (IH L). reflexivity.
Qed.

Section Search.
Context {U : UnicodeCase} {R : RegexEngine}.

Lemma match_here_literal (term text : pystr) :
  match_here (map Lit term) text = true <->
  exists m r, text = m ++ r /\ Forall2 (fun p c => ci_eqb p c = true) term m.
Proof.
  revert text; induction term as [|p term IH]; intros text; simpl.
  - split; [|reflexivity]. intros _. exists [], text. split; [reflexivity|constructor].
  - destruct text as [|c text].
    + split; [discriminate|]. intros (m & r & E & F).
      inversion F; subst. discriminate E.
    + rewrite andb_true_iff, IH. split.
      * intros [H (m & r & -> & F)]. exists (c :: m), r.
        split; [reflexivity | now constructor].
      * intros (m & r & E & F).
        inversion F as [|p' c' term' m' H F']; subst.
        injection E as -> ->. split; [assumption | now exists m', r].
Qed.

(** On a term without special characters the search of [re] finds the
    case-insensitive occurrences, no more and no less. *)
Lemma re_search_literal (term text : pystr) :
  re_search (map Lit term) text = true <-> Spec.ci_substring term text.
Proof.
  unfold Spec.ci_substring. induction text as [|c text IH]; simpl.
  - rewrite orb_false_r, match_here_literal. split.
    + intros (m & r & E & F). now exists [], m, r.
    + intros (l & m & r & E & F). destruct l; [|discriminate E]. now exists m, r.
  - rewrite orb_true_iff, IH. split.
    + intros [H | (l & m & r & E & F)].
      * change (match_here (map Lit term) (c :: text) = true) in H.
        apply match_here_literal in H. destruct H as (m & r & E & F).
        now exists [], m, r.
      * exists (c :: l), m, r. split; [simpl; now rewrite E | assumption].
    + intros ([|c' l] & m & r & E & F).
      * left. change (match_here (map Lit term) (c :: text) = true).
        apply match_here_literal. now exists m, r.
      * right. injection E as _ E. now exists l, m, r.
Qed.

Lemma str_contains_literal (column : list pystr) (term : pystr) :
  literal_term term = true ->
  str_contains column term = ret (map (re_search (map Lit term)) column).
Proof.
  intros L. unfold str_contains, re_compile_ignorecase.
  now rewrite (parse_simple_literal _ L).
Qed.

(** With an empty search box the table is the fetched list. *)
Lemma search_empty_term (shipments : list shipment) (customers : list customer) :
  Dhl.search_shipments shipments [] = ret shipments /\
  Dhl.search_customers customers [] = ret customers.
Proof. split; reflexivity. Qed.

(** X3.  With a term that has no special character, the table is the rows one
    of whose two fields has a case-insensitive occurrence of the term, in
    their order. *)
Lemma search_shipments_literal (df : list shipment) (term : pystr) :
  term <> [] -> literal_term term = true ->
  exists hit : shipment -> bool,
    (forall row, hit row = true <->
                 Spec.ci_substring term (ShipmentName row) \/
                 Spec.ci_substring term (CustomerName row)) /\
    Dhl.search_shipments df term = ret (filter hit df).
Proof.
  intros N L.
  exists (fun row => re_search (map Lit term) (ShipmentName row)
                     || re_search (map Lit term) (CustomerName row)).
  split.
  - intros row. now rewrite orb_true_iff, !re_search_literal.
  - unfold Dhl.search_shipments. destruct term as [|c term]; [now elim N|].
    simpl str_truthy. cbv iota. rewrite !str_contains_literal by exact L.
    unfold bind, ret. simpl. rewrite !map_map.
    now rewrite (select_mask_or
                   (fun row => re_search (map Lit (c :: term)) (ShipmentName row))
                   (fun row => re_search (map Lit (c :: term)) (CustomerName row))).
Qed.

(** X4.  The same on the Customers page, over the name and the e-mail. *)
Lemma search_customers_literal (df : list customer) (term : pystr) :
  term <> [] -> literal_term term = true ->
  exists hit : customer -> bool,
    (forall row, hit row = true <->
                 Spec.ci_substring term (Name row) \/
                 Spec.ci_substring term (Email row)) /\
    Dhl.search_customers df term = ret (filter hit df).
Proof.
  intros N L.
  exists (fun row => re_search (map Lit term) (Name row)
                     || re_search (map Lit term) (Email row)).
  split.
  - intros row. now rewrite orb_true_iff, !re_search_literal.
  - unfold Dhl.search_customers. destruct term as [|c term]; [now elim N|].
    simpl str_truthy. cbv iota. rewrite !str_contains_literal by exact L.
    unfold bind, ret. simpl. rewrite !map_map.
    now rewrite (select_mask_or
                   (fun row => re_search (map Lit (c :: term)) (Name row))
                   (fun row => re_search (map Lit (c :: term)) (Email row))).
Qed.

(** C6, at the failing input.  The term "." occurs in neither field of the
    sample shipment ("abc", "Bob"), so no record should be returned; the
    search reads it as the pattern that matches any character and returns
    the record. *)
Theorem search_term_is_a_pattern :
  Dhl.search_shipments [sample_shipment] (u ".") = ret [sample_shipment]
  /\ ~ Spec.ci_substring (u ".") (ShipmentName sample_shipment)
  /\ ~ Spec.ci_substring (u ".") (CustomerName sample_shipment).
Proof.
  split; [reflexivity|].
  split; rewrite <- (re_search_literal (u ".")); discriminate.
Qed.
End Search.

(** ** The dashboard page *)

Lemma when_truthy_true {A} `{Truthy A} (a : A) (block : A -> run unit) :
  truthy a = true -> Dhl.when_truthy (Some a) block = block a.
Proof. intros T. unfold Dhl.when_truthy. now rewrite T. Qed.

Lemma when_truthy_emit_outcome {A} `{Truthy A} (o : option A) (f : A -> event) :
  outcome (Dhl.when_truthy o (fun a => emit (f a))) = inr tt.
Proof.
  destruct o as [a|]; [|reflexivity]. unfold Dhl.when_truthy.
  now destruct (truthy a).
Qed.


(** One step of a run that ends well is passed over. *)
Ltac pass_step :=
  eapply trace_bind_r;
  [ first [ reflexivity | apply when_truthy_emit_outcome ] | cbv beta ].

Lemma when_truthy_false {A} `{Truthy A} (a : A) (block : A -> run unit) :
  truthy a = false -> Dhl.when_truthy (Some a) block = ret tt.
Proof. intros T. unfold Dhl.when_truthy. now rewrite T. Qed.

Lemma answers_unique {A} (net : http_result A) (a b : A) :
  answers net a -> answers net b -> a = b.
Proof.
  intros (r & E & _ & C) (r' & E' & _ & C'). rewrite E in E'.
  injection E' as <-. rewrite C in C'. now injection C'.
Qed.

(** The two ways of a fetch: the body, or [None] after a message. *)
Lemma fetch_api_data_split {A} (endpoint : fstring) (net : http_result A) :
  (exists a, answers net a /\
             Dhl.fetch_api_data endpoint net =
             ([http_get (dhl_url endpoint)], inr (Some a)))
  \/ ((forall a, ~ answers net a) /\
      exists e, Dhl.fetch_api_data endpoint net =
                ([http_get (dhl_url endpoint); fetch_error e], inr None)).
Proof.
  rewrite fetch_api_data_cases. simpl. destruct net as [msg | r].
  - right. split; [|eexists; reflexivity]. intros a (r & E & _). discriminate E.
  - destruct (Z.leb 400 (status_code r) && Z.ltb (status_code r) 600) eqn:S.
    + right. split; [|eexists; reflexivity].
      intros a (r' & E & S' & _). injection E as <-. congruence.
    + destruct (content r) as [msg | a] eqn:C.
      * right. split; [|eexists; reflexivity].
        intros a (r' & E & _ & C'). injection E as <-. congruence.
      * left. exists a. split; [now exists r | reflexivity].
Qed.

Section Pages.
Context {U : UnicodeCase} {R : RegexEngine} {L : Libraries}.

Lemma library_call_ok (c : call) : raises c = None -> library_call c = ret tt.
Proof. intros E. unfold library_call. now rewrite E. Qed.

Lemma library_call_raises (c : call) (e : exn) :
  raises c = Some e -> library_call c = raise e.
Proof. intros E. unfold library_call. now rewrite E. Qed.


Lemma metric_card_ok (kv : list (pystr * json)) (key label : pystr) (v : json) :
  dict_get key kv = Some v ->
  Dhl.metric_card (JObj kv) key label = (card_events v label, inr tt).
Proof. intros E. unfold Dhl.metric_card, subscript. now rewrite E. Qed.



Lemma has_counts_values (kv : list (pystr * json)) :
  has_counts kv = true ->
  exists a b c d,
    dict_get (u "total_shipments") kv = Some a /\
    dict_get (u "active_shipments") kv = Some b /\
    dict_get (u "delayed_shipments") kv = Some c /\
    dict_get (u "completed_shipments") kv = Some d.
Proof.
  unfold has_counts. cbn [forallb]. rewrite !andb_true_iff.
  intros (A & B & C & D & _).
  destruct (dict_get (u "total_shipments") kv) as [a|]; [|discriminate A].
  destruct (dict_get (u "active_shipments") kv) as [b|]; [|discriminate B].
  destruct (dict_get (u "delayed_shipments") kv) as [c|]; [|discriminate C].
  destruct (dict_get (u "completed_shipments") kv) as [d|]; [|discriminate D].
  now exists a, b, c, d.
Qed.

Lemma view_shipments_tab_eq (i : Dhl.inputs) (w : Dhl.backend) :
  Dhl.view_shipments_tab i w =
  (shipments <- Dhl.fetch_api_data (shipments_endpoint (Dhl.status_filter i))
                  (Dhl.shipments_api w (shipments_endpoint (Dhl.status_filter i))) ;;
   Dhl.when_truthy shipments (fun df_shipments =>
     df_shipments <- Dhl.search_shipments df_shipments (Dhl.search_term i) ;;
     emit (st_dataframe_shipments Dhl.all_shipment_columns df_shipments))).
Proof. reflexivity. Qed.

End Pages.



(** ** The guard on fetched data *)

Section Guard.
Context {U : UnicodeCase} {R : RegexEngine}.

(** C10.  A 2xx answer whose body is the empty list is a fetch that
    succeeds with a value that is false, like [None]: the guard runs the
    section for neither, and the Parcels and Customers pages are then their
    header and the request, with no table, chart or detail.  After a fetch
    that fails the page is the same, with the message of the fetch. *)
Theorem empty_list_skips_the_section :
  (forall A (block : list A -> run unit),
      Dhl.when_truthy (Some []) block = ret tt /\
      Dhl.when_truthy (A := list A) None block = ret tt)
  /\ (forall (i : Dhl.inputs) (w : Dhl.backend) (r : response (list parcel)),
         Dhl.parcels_api w = Resp r ->
         Spec.is_2xx (status_code r) = true -> content r = Json [] ->
         Dhl.parcels_page i w =
         ([Dhl.main_header (u "Parcel Management");
           http_get (dhl_url [Text (u "/parcels")])], inr tt))
  /\ (forall (i : Dhl.inputs) (w : Dhl.backend) (r : response (list customer)),
         Dhl.customers_api w = Resp r ->
         Spec.is_2xx (status_code r) = true -> content r = Json [] ->
         Dhl.customers_page i w =
         ([Dhl.main_header (u "Customer Management");
           http_get (dhl_url [Text (u "/customers")])], inr tt))
  /\ (forall (i : Dhl.inputs) (w : Dhl.backend),
         (forall a, ~ answers (Dhl.parcels_api w) a) ->
         exists e,
           Dhl.parcels_page i w =
           ([Dhl.main_header (u "Parcel Management");
             http_get (dhl_url [Text (u "/parcels")]); fetch_error e], inr tt))
  /\ (forall (i : Dhl.inputs) (w : Dhl.backend),
         (forall a, ~ answers (Dhl.customers_api w) a) ->
         exists e,
           Dhl.customers_page i w =
           ([Dhl.main_header (u "Customer Management");
             http_get (dhl_url [Text (u "/customers")]); fetch_error e], inr tt)).
Proof.
  split; [|split; [|split; [|split]]].
  - intros A block. split; reflexivity.
  - intros i w r E S C. unfold Dhl.parcels_page.
    rewrite fetch_api_data_cases, E. simpl.
    rewrite (is_2xx_accepted _ S), C. reflexivity.
  - intros i w r E S C. unfold Dhl.customers_page.
    rewrite fetch_api_data_cases, E. simpl.
    rewrite (is_2xx_accepted _ S), C. reflexivity.
  - intros i w N. unfold Dhl.parcels_page.
    destruct (fetch_api_data_total [Text (u "/parcels")] (Dhl.parcels_api w))
      as (t & o & -> & _ & K).
    destruct (K N) as (-> & e & ->). exists e. reflexivity.
  - intros i w N. unfold Dhl.customers_page.
    destruct (fetch_api_data_total [Text (u "/customers")] (Dhl.customers_api w))
      as (t & o & -> & _ & K).
    destruct (K N) as (-> & e & ->). exists e. reflexivity.
Qed.
End Guard.

Lemma empty_list_skips_the_section_witness :
  let i := sample_inputs Dhl.Parcels false in
  let w := sample_backend (Failed []) (Failed []) in
  Dhl.parcels_page (U := ascii_case) (R := simple_patterns_only) i w =
    ([Dhl.main_header (u "Parcel Management");
      http_get (dhl_url [Text (u "/parcels")])], inr tt)
  /\ Dhl.customers_page (U := ascii_case) (R := simple_patterns_only) i w =
       ([Dhl.main_header (u "Customer Management");
         http_get (dhl_url [Text (u "/customers")])], inr tt).
Proof.
  pose proof (empty_list_skips_the_section (U := ascii_case)
                (R := simple_patterns_only)) as (_ & P & C & _).
  split.
  - eapply P; reflexivity.
  - eapply C; reflexivity.
Defined.

(** * Further properties *)

(** ** Events and exceptions of composed runs *)

Lemma all_events_ret {A} (P : event -> bool) (a : A) : all_events P (ret a).
Proof. reflexivity. Qed.

Lemma all_events_raise {A} (P : event -> bool) (e : exn) :
  all_events P (raise (A := A) e).
Proof. reflexivity. Qed.

Lemma all_events_emit (P : event -> bool) (e : event) :
  P e = true -> all_events P (emit e).
Proof. unfold all_events. simpl. now intros ->. Qed.

Lemma all_events_bind {A B} (P : event -> bool) (m : run A) (k : A -> run B) :
  all_events P m -> (forall a, all_events P (k a)) -> all_events P (bind m k).
Proof.
  unfold all_events. destruct m as [t [e|a]]; simpl; [trivial|].
  intros M K. specialize (K a). destruct (k a) as [t' r]; simpl in *.
  rewrite forallb_app. now rewrite M, K.
Qed.

Lemma all_events_try {A} (P : event -> bool) (m : run A) (h : exn -> run A) :
  all_events P m -> (forall e, all_events P (h e)) ->
  all_events P (try_except_RequestException m h).
Proof.
  unfold all_events. destruct m as [t [e|a]]; simpl; [|trivial].
  intros M H. destruct (is_RequestException e); [|exact M].
  specialize (H e). destruct (h e) as [t' r]; simpl in *.
  rewrite forallb_app. now rewrite M, H.
Qed.

Lemma raises_only_bind {A B} (Q : exn -> Prop) (m : run A) (k : A -> run B) :
  raises_only Q m -> (forall a, raises_only Q (k a)) -> raises_only Q (bind m k).
Proof.
  unfold raises_only. destruct m as [t [e|a]]; simpl; [trivial|].
  intros _ K. specialize (K a). now destruct (k a) as [t' r].
Qed.

(** What escapes a [try] whose handler raises nothing is what the body
    raises and the clause does not catch. *)
Lemma raises_only_try {A} (Q : exn -> Prop) (m : run A) (h : exn -> run A) :
  raises_only (fun e => is_RequestException e = true \/ Q e) m ->
  (forall e, raises_only Q (h e)) ->
  raises_only Q (try_except_RequestException m h).
Proof.
  unfold raises_only. destruct m as [t [e|a]]; simpl; [|trivial].
  intros M H. destruct (is_RequestException e) eqn:E.
  - specialize (H e). now destruct (h e) as [t' r].
  - simpl. destruct M as [M|M]; [discriminate M | exact M].
Qed.

Lemma response_json_silent {A} (P : event -> bool) (r : response A) :
  all_events P (response_json r).
Proof. unfold response_json. now destruct (content r). Qed.

Lemma subscript_silent (P : event -> bool) (v : json) (k : pystr) :
  all_events P (subscript v k).
Proof. destruct v; try reflexivity. simpl. now destruct (dict_get k kv). Qed.

Lemma get_default_silent (P : event -> bool) (v : json) (k : pystr) (d : json) :
  all_events P (get_default v k d).
Proof. destruct v; try reflexivity. simpl. now destruct (dict_get k kv). Qed.

Lemma status_class_silent {U : UnicodeCase} (P : event -> bool) (v : json) :
  all_events P (App.status_class v).
Proof.
  destruct v; try reflexivity. rewrite status_class_eval. reflexivity.
Qed.

(** A run made of binds, branches and the silent steps above has only
    events that pass the test. *)
Ltac silent_steps :=
  repeat first
    [ apply all_events_ret
    | apply all_events_raise
    | apply response_json_silent
    | apply subscript_silent
    | apply get_default_silent
    | apply status_class_silent
    | apply all_events_emit; reflexivity
    | apply all_events_bind; [|intros ?]
    | apply all_events_try; [|intros ?]
    | match goal with
      | |- all_events _ (if ?c then _ else _) => destruct c
      end ].

Lemma filter_none {A} (P : A -> bool) (l : list A) :
  forallb (fun x => negb (P x)) l = true -> filter P l = [].
Proof.
  induction l as [|x l IH]; simpl; [reflexivity|].
  rewrite andb_true_iff, negb_true_iff. intros [-> H]. now apply IH.
Qed.

(** A handler that makes its request first and is silent afterwards,
    whatever the answer, makes that one request. *)
Lemma one_request_then_silence {A B} (req : event) (net : http_result A)
    (k : response A -> run B) (h : exn -> run B) :
  is_request req = true ->
  (forall r, all_events (fun e => negb (is_request e)) (k r)) ->
  (forall e, all_events (fun e => negb (is_request e)) (h e)) ->
  filter is_request
    (trace (try_except_RequestException
              (bind (emit req ;;
                     match net with
                     | Failed msg => raise (TransportError msg)
                     | Resp r => ret r
                     end) k) h))
  = [req].
Proof.
  intros Q K H. destruct net as [msg | r]; simpl.
  - specialize (H (TransportError msg)). unfold all_events in H.
    destruct (h (TransportError msg)) as [t' r']; simpl in *.
    rewrite Q. f_equal. now apply filter_none.
  - specialize (K r). unfold all_events in K.
    destruct (k r) as [t [e|b]]; simpl in *.
    + destruct (is_RequestException e).
      * specialize (H e). unfold all_events in H.
        destruct (h e) as [t' r']; simpl in *. rewrite Q. f_equal.
        rewrite filter_app.
        apply filter_none in K. apply filter_none in H. now rewrite K, H.
      * simpl. rewrite Q. f_equal. now apply filter_none.
    + rewrite Q. f_equal. now apply filter_none.
Qed.

(** ** The tabs of app.py *)

Section AppTabs.
Context {U : UnicodeCase}.

(** X5.  Each tab of app.py makes exactly one request when its form is
    submitted, the GET or PUT of its resource, and none otherwise: no
    answer makes a tab ask again. *)
Theorem tabs_request_once :
  (forall submit id net,
      filter is_request (trace (App.customer_lookup submit id net)) =
      if submit then [http_get (customer_url id)] else [])
  /\ (forall submit id net,
         filter is_request (trace (App.parcel_tracking submit id net)) =
         if submit then [http_get (parcel_url id)] else [])
  /\ (forall submit id status net,
         filter is_request (trace (App.update_status submit id status net)) =
         if submit
         then [http_put (status_url id) (JObj [(u "status", JStr status)])]
         else []).
Proof.
  split; [|split].
  - intros [|] id net; [|reflexivity].
    unfold App.customer_lookup, requests_get.
    apply one_request_then_silence; [reflexivity | intros r | intros e];
      silent_steps.
  - intros [|] id net; [|reflexivity].
    unfold App.parcel_tracking, requests_get.
    apply one_request_then_silence; [reflexivity | intros r | intros e];
      silent_steps.
  - intros [|] id status net; [|reflexivity].
    unfold App.update_status, requests_put.
    apply one_request_then_silence; [reflexivity | intros r | intros e];
      silent_steps.
Qed.
End AppTabs.

Lemma raises_only_silent {A} (Q : exn -> Prop) (t : list event) (a : A) :
  raises_only Q (t, inr a).
Proof. exact I. Qed.

Lemma requests_get_raises {A} (Q : exn -> Prop) (url : fstring)
    (net : http_result A) :
  raises_only (fun e => is_RequestException e = true \/ Q e) (requests_get url net).
Proof. destruct net; [now left | exact I]. Qed.

Lemma requests_put_raises {A} (Q : exn -> Prop) (url : fstring) (payload : json)
    (net : http_result A) :
  raises_only (fun e => is_RequestException e = true \/ Q e)
              (requests_put url payload net).
Proof. destruct net; [now left | exact I]. Qed.

Lemma response_json_raises {A} (Q : exn -> Prop) (r : response A) :
  raises_only (fun e => is_RequestException e = true \/ Q e) (response_json r).
Proof. unfold response_json. destruct (content r); [now left | exact I]. Qed.

Lemma subscript_raises (Q : exn -> Prop) (v : json) (k : pystr) :
  Q TypeError -> Q (KeyError k) -> raises_only Q (subscript v k).
Proof.
  intros T K. destruct v; try exact T. simpl.
  destruct (dict_get k kv); [exact I | exact K].
Qed.

Lemma get_default_raises (Q : exn -> Prop) (v : json) (k : pystr) (d : json) :
  Q AttributeError -> raises_only Q (get_default v k d).
Proof.
  intros T. destruct v; try exact T. simpl. now destruct (dict_get k kv).
Qed.

Lemma status_class_raises {U : UnicodeCase} (Q : exn -> Prop) (v : json) :
  Q AttributeError -> raises_only Q (App.status_class v).
Proof.
  intros T. destruct v; try exact T. rewrite status_class_eval. exact I.
Qed.

Ltac shape_side :=
  solve [ right; unfold shape_error; eauto | right; reflexivity ].

Ltac escaping_steps :=
  repeat first
    [ apply raises_only_silent
    | apply requests_get_raises
    | apply requests_put_raises
    | apply response_json_raises
    | apply subscript_raises; shape_side
    | apply get_default_raises; shape_side
    | apply status_class_raises; shape_side
    | apply raises_only_bind; [|intros ?]
    | match goal with
      | |- raises_only _ (if ?c then _ else _) => destruct c
      end ].

Section AppEscapes.
Context {U : UnicodeCase}.

(** X6.  No request exception escapes a tab of app.py: transport failures
    and bodies that are not JSON end in the tab's message.  What can escape
    is an exception about the shape of a JSON body: [KeyError] or
    [TypeError] from the card of a 200 answer, [AttributeError] from a
    status that is not text or an error body that is not an object; the
    Update Status tab can only raise the last. *)
Theorem tabs_escaping_exceptions :
  (forall submit id net,
      raises_only shape_error (App.customer_lookup submit id net))
  /\ (forall submit id net,
         raises_only shape_error (App.parcel_tracking submit id net))
  /\ (forall submit id status net,
         raises_only (fun e => e = AttributeError)
                     (App.update_status submit id status net)).
Proof.
  split; [|split].
  - intros [|] id net; [|exact I]. unfold App.customer_lookup.
    apply raises_only_try; [|intros e; exact I]. escaping_steps.
  - intros [|] id net; [|exact I]. unfold App.parcel_tracking.
    apply raises_only_try; [|intros e; exact I]. escaping_steps.
  - intros [|] id status net; [|exact I]. unfold App.update_status.
    apply raises_only_try; [|intros e; exact I]. escaping_steps.
Qed.

Lemma lower_from_ascii (before s : pystr) :
  forallb is_ascii s = true -> lower_from before s = map ascii_lower s.
Proof.
  revert before; induction s as [|c s IH]; intros before; simpl;
    [reflexivity|].
  rewrite andb_true_iff. intros [-> H]. simpl. now rewrite IH.
Qed.

(** X7.  The category does not depend on letter case: two ASCII statuses
    that are equal up to the case of their letters get the same
    category. *)
Theorem status_class_ignores_case (s t : pystr) :
  forallb is_ascii s = true -> forallb is_ascii t = true ->
  map ascii_lower s = map ascii_lower t ->
  App.status_class (JStr s) = App.status_class (JStr t).
Proof.
  intros S T E. rewrite !status_class_eval. unfold lower.
  now rewrite !lower_from_ascii, E by assumption.
Qed.

(** X8.  A 200 answer to Parcel Tracking whose object has no "Status" ends
    the run with a [KeyError], and one whose "Status" is not text (null, a
    number, a list) ends it with an [AttributeError]; either way nothing
    is displayed after the request. *)
Theorem parcel_tracking_status_not_text (parcel_id : Z) (kv : list (pystr * json)) :
  (dict_get (u "Status") kv = None ->
   App.parcel_tracking true parcel_id (respond 200 (Json (JObj kv))) =
   ([http_get (parcel_url parcel_id)], inl (KeyError (u "Status"))))
  /\ (forall v, dict_get (u "Status") kv = Some v -> (forall s, v <> JStr s) ->
        App.parcel_tracking true parcel_id (respond 200 (Json (JObj kv))) =
        ([http_get (parcel_url parcel_id)], inl AttributeError)).
Proof.
  unfold App.parcel_tracking, requests_get, response_json, subscript. split.
  - intros S. cbn -[App.status_class]. now rewrite S.
  - intros v S N. cbn -[App.status_class]. rewrite S. cbn -[App.status_class].
    rewrite (status_class_not_a_string N). reflexivity.
Qed.

(** X9.  On a 200 answer with a JSON object, Customer Lookup shows the card
    when the object has "CustomerID", "Name" and "Address"; when one is
    missing the run ends with the [KeyError] of the first missing key, in
    that order, and nothing is displayed. *)
Theorem customer_lookup_card_or_key_error (id : Z) (kv : list (pystr * json)) :
  App.customer_lookup true id (respond 200 (Json (JObj kv))) =
  match dict_get (u "CustomerID") kv, dict_get (u "Name") kv,
        dict_get (u "Address") kv with
  | Some i, Some n, Some a =>
      ([http_get (customer_url id); customer_card i n a], inr tt)
  | None, _, _ => ([http_get (customer_url id)], inl (KeyError (u "CustomerID")))
  | Some _, None, _ => ([http_get (customer_url id)], inl (KeyError (u "Name")))
  | Some _, Some _, None =>
      ([http_get (customer_url id)], inl (KeyError (u "Address")))
  end.
Proof.
  unfold App.customer_lookup, requests_get, response_json, subscript. cbn.
  destruct (dict_get (u "CustomerID") kv); [|reflexivity]. cbn.
  destruct (dict_get (u "Name") kv); [|reflexivity]. cbn.
  destruct (dict_get (u "Address") kv); reflexivity.
Qed.
End AppEscapes.

Lemma status_class_ignores_case_witness :
  App.status_class (U := ascii_case) (JStr (u "In Transit")) =
  App.status_class (U := ascii_case) (JStr (u "IN TRANSIT")).
Proof.
  apply (status_class_ignores_case (U := ascii_case)); reflexivity.
Defined.

Lemma parcel_tracking_status_not_text_witness :
  App.parcel_tracking (U := ascii_case) true 4
    (respond 200 (Json (JObj [(u "ParcelID", JInt 4)]))) =
    ([http_get (parcel_url 4)], inl (KeyError (u "Status")))
  /\ App.parcel_tracking (U := ascii_case) true 4
       (respond 200 (Json (JObj [(u "ParcelID", JInt 4); (u "Status", JNull)]))) =
     ([http_get (parcel_url 4)], inl AttributeError).
Proof.
  split.
  - apply (proj1 (parcel_tracking_status_not_text (U := ascii_case) 4 _)).
    reflexivity.
  - apply (proj2 (parcel_tracking_status_not_text (U := ascii_case) 4 _) JNull).
    + reflexivity.
    + discriminate.
Defined.

Lemma customer_lookup_follows_taxonomy_witness :
  App.customer_lookup true 3
    (respond 400 (Json (JObj [(u "detail", JStr (u "bad input"))]))) =
  ([http_get (customer_url 3);
    st_error (Spec.customer_message
                (Spec.ServerError 400 (JStr (u "bad input"))))], inr tt).
Proof.
  apply customer_lookup_follows_taxonomy.
  - reflexivity.
  - right. eexists. reflexivity.
Defined.

Lemma parcel_tracking_badge_witness :
  App.parcel_tracking (U := ascii_case) true 4
    (respond 200 (Json (JObj [(u "ParcelID", JInt 4); (u "CustomerID", JInt 3);
                              (u "Status", JStr (u "In Transit"))]))) =
  ([http_get [Text App.API_BASE_URL; Text (u "/parcels/"); Val (JInt 4)];
    st_markdown
      [Text (u "<div class='card'><h3>Parcel #"); Val (JInt 4);
       Text (u "</h3><p><strong>Customer ID:</strong> "); Val (JInt 3);
       Text (u "</p><p><strong>Status:</strong> <span class='");
       Text (App.css_class App.InTransit); Text (u "'>");
       Val (JStr (u "In Transit")); Text (u "</span></p></div>")]], inr tt).
Proof.
  apply (parcel_tracking_badge (U := ascii_case)); try reflexivity.
  apply Spec.classify_transit; [discriminate|].
  apply contains_spec. reflexivity.
Defined.

(** ** The helpers of the dashboard, on every answer *)

(** X10.  [fetch_api_data] never raises and makes one GET.  It returns the
    parsed body exactly when the status is outside 400..599 and the body
    parses, and then shows nothing; otherwise it returns [None] after one
    error message. *)
Theorem fetch_api_data_outcome {A} (endpoint : fstring) (net : http_result A) :
  exists t o,
    Dhl.fetch_api_data endpoint net = (http_get (dhl_url endpoint) :: t, inr o)
    /\ (forall a, o = Some a <-> answers net a)
    /\ (o = None <-> exists e, t = [fetch_error e])
    /\ (o <> None -> t = []).
Proof.
  rewrite fetch_api_data_cases. simpl. unfold answers.
  destruct net as [msg | r].
  - do 2 eexists. split; [reflexivity|]. repeat split; try discriminate.
    + intros (r & E & _). discriminate E.
    + intros _. eexists; reflexivity.
    + intros N. now elim N.
  - destruct (Z.leb 400 (status_code r) && Z.ltb (status_code r) 600) eqn:S.
    + do 2 eexists. split; [reflexivity|]. repeat split; try discriminate.
      * intros (r' & E & S' & _). injection E as <-. congruence.
      * intros _. eexists; reflexivity.
      * intros N. now elim N.
    + destruct (content r) as [msg | a] eqn:C.
      * do 2 eexists. split; [reflexivity|]. repeat split; try discriminate.
        -- intros (r' & E & _ & C'). injection E as <-. congruence.
        -- intros _. eexists; reflexivity.
        -- intros N. now elim N.
      * do 2 eexists. split; [reflexivity|]. repeat split.
        -- intros E. injection E as <-. now exists r.
        -- intros (r' & E & _ & C'). injection E as <-. congruence.
        -- discriminate.
        -- intros (e & E). discriminate E.
Qed.

(** X11.  [update_shipment_status] never raises and makes one PUT.  It
    returns [True] exactly when the server answers with a status outside
    400..599, whatever the body, which is not read; otherwise it returns
    [False] after one error message. *)
Theorem update_shipment_status_outcome
    (id : Z) (status location : pystr) (net : http_result json) :
  exists t ok,
    Dhl.update_shipment_status id status location net =
    (http_put (shipment_url id) (shipment_payload status location) :: t, inr ok)
    /\ (ok = true <-> exists r, net = Resp r /\ accepted (status_code r) = true)
    /\ (ok = true -> t = [])
    /\ (ok = false -> exists e, t = [update_error e]).
Proof.
  rewrite update_shipment_status_cases. simpl. unfold accepted.
  destruct net as [msg | r].
  - do 2 eexists. split; [reflexivity|]. repeat split; try discriminate.
    + intros (r & E & _). discriminate E.
    + intros _. eexists; reflexivity.
  - destruct (Z.leb 400 (status_code r) && Z.ltb (status_code r) 600) eqn:S.
    + do 2 eexists. split; [reflexivity|]. repeat split; try discriminate.
      * intros (r' & E & S'). injection E as <-. rewrite S in S'. discriminate S'.
      * intros _. eexists; reflexivity.
    + do 2 eexists. split; [reflexivity|]. repeat split; try discriminate.
      intros _. exists r. now rewrite S.
Qed.

(** X12.  When the update fails (no answer, or a status in 400..599), a
    click on Update Shipment shows the error message of the helper and
    nothing else: no confirmation, no rerun, and the run goes on. *)
Theorem update_button_failure
    (id : Z) (status location : pystr) (net : http_result json) :
  (forall r, net = Resp r -> accepted (status_code r) = false) ->
  exists e,
    Dhl.update_shipment_button true id status location net =
    ([http_put (shipment_url id) (shipment_payload status location);
      update_error e], inr tt).
Proof.
  intros N. unfold Dhl.update_shipment_button.
  rewrite update_shipment_status_cases. simpl. destruct net as [msg | r].
  - eexists; reflexivity.
  - specialize (N r eq_refl). unfold accepted in N.
    apply negb_false_iff in N. rewrite N. eexists; reflexivity.
Qed.

Lemma update_button_failure_witness :
  exists e,
    Dhl.update_shipment_button true 7 (u "Delivered") (u "Leipzig")
      (respond 404 (NotJson [])) =
    ([http_put (shipment_url 7) (shipment_payload (u "Delivered") (u "Leipzig"));
      update_error e], inr tt).
Proof.
  apply update_button_failure. intros r E. injection E as <-. reflexivity.
Defined.

Lemma selectbox_in {A} (options : list A) (pick : nat) :
  options <> [] -> exists a, selectbox options pick = Some a /\ In a options.
Proof.
  intros N. unfold selectbox. destruct (nth_error options pick) as [a|] eqn:E.
  - exists a. split; [reflexivity|]. now apply nth_error_In with pick.
  - destruct options as [|a options]; [now elim N|].
    exists a. split; [reflexivity | now left].
Qed.

(** X13.  When the shipment list is fetched and is not empty, the Update
    Shipment tab always finds its current shipment: it is the first
    shipment of the list that has the identifier of the picked row, and
    its status is displayed.  The guard [if current_shipment:] never
    fails. *)
Theorem update_tab_finds_current_shipment
    (i : Dhl.inputs) (w : Dhl.backend) (l : list shipment) :
  answers (Dhl.shipments_api w [Text (u "/shipments")]) l -> l <> [] ->
  exists chosen cur,
    selectbox l (Dhl.selected i) = Some chosen
    /\ find (fun s => Z.eqb (ShipmentID s) (ShipmentID chosen)) l = Some cur
    /\ In cur l /\ ShipmentID cur = ShipmentID chosen
    /\ In (st_write [Text (u "Current Status: **"); Text (Status cur);
                     Text (u "**")])
          (trace (Dhl.update_shipment_tab i w)).
Proof.
  intros A N.
  destruct (selectbox_in (Dhl.selected i) N) as (chosen & S & I).
  destruct (find (fun s => Z.eqb (ShipmentID s) (ShipmentID chosen)) l)
    as [cur|] eqn:F.
  - exists chosen, cur. apply find_some in F as F'. destruct F' as [I' E].
    apply Z.eqb_eq in E. repeat split; try assumption.
    unfold Dhl.update_shipment_tab.
    destruct (fetch_api_data_total [Text (u "/shipments")]
                (Dhl.shipments_api w [Text (u "/shipments")]))
      as (t & o & -> & K & _).
    destruct (K l A) as [-> ->].
    pass_step. rewrite when_truthy_true by (destruct l; [now elim N | reflexivity]).
    rewrite S, F. apply trace_bind_l. now left.
  - apply (find_none _ _ F) in I. rewrite Z.eqb_refl in I. discriminate I.
Qed.

Lemma update_tab_finds_current_shipment_witness :
  let i := sample_inputs Dhl.Shipments false in
  let w := sample_backend (Failed []) (Failed []) in
  exists chosen cur,
    selectbox [sample_shipment] (Dhl.selected i) = Some chosen
    /\ find (fun s => Z.eqb (ShipmentID s) (ShipmentID chosen)) [sample_shipment]
       = Some cur
    /\ In cur [sample_shipment] /\ ShipmentID cur = ShipmentID chosen
    /\ In (st_write [Text (u "Current Status: **"); Text (Status cur);
                     Text (u "**")])
          (trace (Dhl.update_shipment_tab i w)).
Proof.
  intros i w. apply update_tab_finds_current_shipment.
  - eexists. repeat split.
  - discriminate.
Defined.

(** ** Searching and filtering the tables *)

Lemma select_mask {A} (column : A -> pystr) (matches : pystr -> bool)
    (df : list A) :
  select df (map (fun row => matches (column row)) df) =
  filter (fun row => matches (column row)) df.
Proof.
  induction df as [|row df IH]; simpl; [reflexivity|]. now rewrite IH.
Qed.

Lemma selectbox_nil {A} (pick : nat) : selectbox (@nil A) pick = None.
Proof. unfold selectbox. now destruct pick. Qed.

Section Tables.
Context {U : UnicodeCase} {R : RegexEngine} {L : Libraries}.

Lemma str_contains_cases (column : list pystr) (pat : pystr) :
  str_contains column pat =
  match re_compile_ignorecase pat with
  | inl e => raise e
  | inr matches => ret (map matches column)
  end.
Proof. reflexivity. Qed.

(** X14.  For a search term that is not empty, the View Shipments search
    raises the error of the pattern when the term does not compile, with
    nothing displayed; when it compiles, the table is the rows whose
    shipment name or customer name the pattern matches, in their order:
    the search drops rows and never adds, repeats or reorders them. *)
Theorem search_shipments_is_a_filter (df : list shipment) (term : pystr) :
  term <> [] ->
  Dhl.search_shipments df term =
  match re_compile_ignorecase term with
  | inl e => raise e
  | inr matches =>
      ret (filter (fun row => matches (ShipmentName row)
                              || matches (CustomerName row)) df)
  end.
Proof.
  intros N. unfold Dhl.search_shipments.
  destruct term as [|c term]; [now elim N|]. simpl str_truthy. cbv iota.
  rewrite !str_contains_cases.
  destruct (re_compile_ignorecase (c :: term)) as [e | matches];
    [reflexivity|].
  unfold bind, ret. rewrite !map_map.
  now rewrite (select_mask_or (fun row => matches (ShipmentName row))
                              (fun row => matches (CustomerName row))).
Qed.

(** X15.  A search term that does not compile ends the run of the
    Shipments page at the search: after the header and the fetch of the
    list nothing is displayed, the Update Shipment tab is not reached and
    the footer is not shown. *)
Theorem bad_pattern_ends_the_shipments_page
    (i : Dhl.inputs) (w : Dhl.backend) (l : list shipment) (e : exn) :
  Dhl.page i = Dhl.Shipments ->
  answers (Dhl.shipments_api w (shipments_endpoint (Dhl.status_filter i))) l ->
  l <> [] -> Dhl.search_term i <> [] ->
  re_compile_ignorecase (Dhl.search_term i) = inl e ->
  Dhl.script i w =
  ([Dhl.main_header (u "Shipment Management");
    http_get (dhl_url (shipments_endpoint (Dhl.status_filter i)))], inl e).
Proof.
  intros P A N T C. unfold Dhl.script. rewrite P.
  unfold Dhl.shipments_page. rewrite view_shipments_tab_eq.
  destruct (fetch_api_data_total (shipments_endpoint (Dhl.status_filter i))
              (Dhl.shipments_api w (shipments_endpoint (Dhl.status_filter i))))
    as (t & o & -> & K & _).
  destruct (K l A) as [-> ->].
  cbn [bind emit ret app].
  rewrite when_truthy_true by (destruct l; [now elim N | reflexivity]).
  unfold Dhl.search_shipments.
  destruct (Dhl.search_term i) as [|c term]; [now elim T|].
  simpl str_truthy. cbv iota. rewrite str_contains_cases, C. reflexivity.
Qed.

(** X16.  When the search of the Customers page keeps no row, the select
    box of the details has no option and holds [None]: the page shows the
    empty table and then requests the customer "None". *)
Theorem customers_search_without_match
    (i : Dhl.inputs) (w : Dhl.backend) (l : list customer) :
  answers (Dhl.customers_api w) l -> l <> [] ->
  Dhl.search_customers l (Dhl.search_term i) = ret [] ->
  exists t o,
    Dhl.customers_page i w =
    ([Dhl.main_header (u "Customer Management");
      http_get (dhl_url [Text (u "/customers")]);
      st_dataframe_customers [];
      Dhl.sub_header (u "Customer Details");
      http_get (dhl_url [Text (u "/customers/"); Val JNull])] ++ t, o).
Proof.
  intros A N S. unfold Dhl.customers_page.
  destruct (fetch_api_data_total [Text (u "/customers")] (Dhl.customers_api w))
    as (t & o & -> & K & _).
  destruct (K l A) as [-> ->].
  cbn [bind emit ret app].
  rewrite when_truthy_true by (destruct l; [now elim N | reflexivity]).
  unfold Dhl.customer_section. rewrite S. cbn [bind emit ret app map].
  rewrite selectbox_nil.
  destruct (fetch_api_data_total [Text (u "/customers/"); Val JNull]
              (Dhl.customer_api w JNull)) as (t' & o' & -> & _).
  cbn [bind emit ret app].
  destruct (Dhl.when_truthy o' _) as [t'' r'']. do 2 eexists. reflexivity.
Qed.

(** X17.  The table of the Parcels page holds the parcels that pass both
    the search (when the box is not empty) and the type picked (when it is
    not "All"), in their order; the weight chart below it is always that
    of all fetched parcels, whatever the filters. *)
Theorem parcel_section_rows (i : Dhl.inputs) (parcels : list parcel)
    (matches : pystr -> bool) :
  re_compile_ignorecase (Dhl.search_term i) = inr matches ->
  Dhl.parcel_section i parcels =
  let searched p :=
    if str_truthy (Dhl.search_term i) then matches (parcel_ParcelName p)
    else true in
  let typed p :=
    match selectbox (u "All" :: unique (map parcel_Type parcels))
                    (Dhl.type_filter_pick i) with
    | Some t => if str_eqb t (u "All") then true else str_eqb (parcel_Type p) t
    | None => true
    end in
  ([st_dataframe_parcels (filter (fun p => searched p && typed p) parcels);
    Dhl.sub_header (u "Parcel Weight Distribution");
    st_plotly_chart (px_histogram parcels)], inr tt).
Proof.
  intros C. unfold Dhl.parcel_section. cbv zeta.
  set (pick := selectbox _ _).
  assert (F : forall (f g : parcel -> bool) l,
             filter g (filter f l) = filter (fun p => f p && g p) l).
  { intros f g l. induction l as [|p l IH]; simpl; [reflexivity|].
    destruct (f p); simpl; [destruct (g p)|]; now rewrite IH. }
  assert (T : forall (f : parcel -> bool) l,
             (forall p, f p = true) -> filter f l = l).
  { intros f l H. induction l as [|p l IH]; simpl; [reflexivity|].
    now rewrite H, IH. }
  destruct (str_truthy (Dhl.search_term i)).
  - rewrite str_contains_cases, C. cbn [bind ret emit app].
    rewrite map_map, (select_mask parcel_ParcelName matches).
    do 3 f_equal. destruct pick as [t|].
    + destruct (str_eqb t (u "All")); cbn [negb].
      * apply filter_ext. intros p. now rewrite andb_true_r.
      * now rewrite F.
    + apply filter_ext. intros p. now rewrite andb_true_r.
  - cbn [bind ret emit app]. do 3 f_equal. destruct pick as [t|].
    + destruct (str_eqb t (u "All")); cbn [negb].
      * now rewrite T.
      * reflexivity.
    + now rewrite T.
Qed.
End Tables.

Lemma search_shipments_literal_witness :
  exists hit : shipment -> bool,
    (forall row, hit row = true <->
                 Spec.ci_substring (U := ascii_case) (u "BO") (ShipmentName row) \/
                 Spec.ci_substring (U := ascii_case) (u "BO") (CustomerName row)) /\
    Dhl.search_shipments (U := ascii_case) (R := simple_patterns_only)
      [sample_shipment] (u "BO") = ret (filter hit [sample_shipment]).
Proof.
  apply (search_shipments_literal (U := ascii_case) (R := simple_patterns_only)).
  - discriminate.
  - reflexivity.
Defined.

Lemma search_customers_literal_witness :
  exists hit : customer -> bool,
    (forall row, hit row = true <->
                 Spec.ci_substring (U := ascii_case) (u "ALICE") (Name row) \/
                 Spec.ci_substring (U := ascii_case) (u "ALICE") (Email row)) /\
    Dhl.search_customers (U := ascii_case) (R := simple_patterns_only)
      [sample_customer] (u "ALICE") = ret (filter hit [sample_customer]).
Proof.
  apply (search_customers_literal (U := ascii_case) (R := simple_patterns_only)).
  - discriminate.
  - reflexivity.
Defined.

Lemma search_shipments_is_a_filter_witness :
  Dhl.search_shipments (U := ascii_case) (R := simple_patterns_only)
    [sample_shipment] (u "(") =
  match re_compile_ignorecase (U := ascii_case) (R := simple_patterns_only)
          (u "(") with
  | inl e => raise e
  | inr matches =>
      ret (filter (fun row => matches (ShipmentName row)
                              || matches (CustomerName row)) [sample_shipment])
  end.
Proof.
  apply (search_shipments_is_a_filter (U := ascii_case)
           (R := simple_patterns_only)).
  discriminate.
Defined.

Lemma bad_pattern_ends_the_shipments_page_witness :
  let i := {| Dhl.page := Dhl.Shipments; Dhl.status_filter := u "All";
              Dhl.search_term := u "("; Dhl.selected := 0;
              Dhl.type_filter_pick := 0; Dhl.new_status := u "Delivered";
              Dhl.new_location := None; Dhl.update_clicked := true |} in
  Dhl.script (U := ascii_case) (R := simple_patterns_only)
    (L := sample_libraries) i (sample_backend (Failed []) (Failed [])) =
  ([Dhl.main_header (u "Shipment Management");
    http_get (dhl_url (shipments_endpoint (u "All")))],
   inl (ReError (u "unsupported pattern"))).
Proof.
  intros i.
  apply (bad_pattern_ends_the_shipments_page (U := ascii_case)
           (R := simple_patterns_only) (L := sample_libraries) i
           (sample_backend (Failed []) (Failed [])) (l := [sample_shipment])).
  - reflexivity.
  - eexists. repeat split.
  - discriminate.
  - discriminate.
  - reflexivity.
Defined.

Lemma customers_search_without_match_witness :
  let i := {| Dhl.page := Dhl.Customers; Dhl.status_filter := u "All";
              Dhl.search_term := u "zzz"; Dhl.selected := 0;
              Dhl.type_filter_pick := 0; Dhl.new_status := u "Delivered";
              Dhl.new_location := None; Dhl.update_clicked := false |} in
  let w := {| Dhl.summary_api := Failed [];
              Dhl.status_count_api := Failed [];
              Dhl.efficiency_api := Failed [];
              Dhl.analytics_api := Failed [];
              Dhl.shipments_api := fun _ => Failed [];
              Dhl.customers_api := respond 200 (Json [sample_customer]);
              Dhl.customer_api := fun _ => respond 404 (NotJson []);
              Dhl.parcels_api := Failed [];
              Dhl.routes_api := Failed [];
              Dhl.locations_api := Failed [];
              Dhl.put_shipment_api := fun _ _ => Failed [] |} in
  exists t o,
    Dhl.customers_page (U := ascii_case) (R := simple_patterns_only) i w =
    ([Dhl.main_header (u "Customer Management");
      http_get (dhl_url [Text (u "/customers")]);
      st_dataframe_customers [];
      Dhl.sub_header (u "Customer Details");
      http_get (dhl_url [Text (u "/customers/"); Val JNull])] ++ t, o).
Proof.
  intros i w.
  apply (customers_search_without_match (U := ascii_case)
           (R := simple_patterns_only) i w (l := [sample_customer])).
  - eexists. repeat split.
  - discriminate.
  - reflexivity.
Defined.

Lemma parcel_section_rows_witness :
  let i := {| Dhl.page := Dhl.Parcels; Dhl.status_filter := u "All";
              Dhl.search_term := u "book"; Dhl.selected := 0;
              Dhl.type_filter_pick := 1; Dhl.new_status := u "Delivered";
              Dhl.new_location := None; Dhl.update_clicked := false |} in
  Dhl.parcel_section (U := ascii_case) (R := simple_patterns_only) i
    [sample_parcel] =
  ([st_dataframe_parcels [sample_parcel];
    Dhl.sub_header (u "Parcel Weight Distribution");
    st_plotly_chart (px_histogram [sample_parcel])], inr tt).
Proof.
  intros i.
  exact (parcel_section_rows (U := ascii_case) (R := simple_patterns_only)
           i [sample_parcel] eq_refl).
Defined.

(** ** Whole runs of the dashboard *)

Lemma fetch_api_data_events {A} (P : event -> bool) (endpoint : fstring)
    (net : http_result A) :
  P (http_get (dhl_url endpoint)) = true ->
  (forall e, P (fetch_error e) = true) ->
  all_events P (Dhl.fetch_api_data endpoint net).
Proof.
  intros G E. unfold all_events. rewrite fetch_api_data_cases. simpl.
  destruct net as [msg | r]; simpl; [now rewrite G, E|].
  destruct (Z.leb 400 (status_code r) && Z.ltb (status_code r) 600); simpl;
    [now rewrite G, E|].
  destruct (content r); simpl; now rewrite G, ?E.
Qed.

Lemma when_truthy_events {A} `{Truthy A} (P : event -> bool) (o : option A)
    (block : A -> run unit) :
  (forall a, all_events P (block a)) -> all_events P (Dhl.when_truthy o block).
Proof.
  intros B. destruct o as [a|]; [|reflexivity]. unfold Dhl.when_truthy.
  destruct (truthy a); [apply B | reflexivity].
Qed.

Lemma str_contains_silent {U : UnicodeCase} {R : RegexEngine}
    (P : event -> bool) (column : list pystr) (pat : pystr) :
  all_events P (str_contains column pat).
Proof.
  unfold str_contains. now destruct (re_compile_ignorecase pat).
Qed.

Lemma library_call_silent {L : Libraries} (P : event -> bool) (c : call) :
  all_events P (library_call c).
Proof. unfold library_call. now destruct (raises c). Qed.

Lemma display_events {L : Libraries} (P : event -> bool) (element : event) :
  P element = true -> all_events P (display element).
Proof.
  intros E. unfold display, library_call, all_events.
  destruct (raises (build element)); simpl; [reflexivity | now rewrite E].
Qed.

Lemma update_shipment_button_events (P : event -> bool) (clicked : bool)
    (id : Z) (status location : pystr) (net : http_result json) :
  P (http_put (shipment_url id) (shipment_payload status location)) = true ->
  (forall e, P (update_error e) = true) ->
  P shipment_updated = true -> P st_rerun = true ->
  all_events P (Dhl.update_shipment_button clicked id status location net).
Proof.
  intros Pp Pe Ps Pr. unfold Dhl.update_shipment_button.
  destruct clicked; [|reflexivity].
  rewrite update_shipment_status_cases. unfold all_events. simpl.
  destruct net as [msg | r]; simpl; [now rewrite Pp, Pe|].
  destruct (Z.leb 400 (status_code r) && Z.ltb (status_code r) 600); simpl.
  - now rewrite Pp, Pe.
  - fold shipment_updated. now rewrite Pp, Ps, Pr.
Qed.

(** The steps of a page: fetches, guards, searches, library calls and
    elements. *)
Ltac page_steps :=
  repeat first
    [ apply all_events_ret
    | apply all_events_raise
    | apply str_contains_silent
    | apply subscript_silent
    | apply library_call_silent
    | apply display_events; reflexivity
    | apply all_events_emit; reflexivity
    | apply fetch_api_data_events; [reflexivity | intros ?; reflexivity]
    | apply update_shipment_button_events;
      [reflexivity | intros ?; reflexivity | reflexivity | reflexivity]
    | apply when_truthy_events; intros ?
    | apply all_events_bind; [|intros ?]
    | match goal with
      | |- all_events _ (if ?c then _ else _) => destruct c
      | |- all_events _ (match ?x with _ => _ end) => destruct x
      end ].

Ltac open_pages :=
  unfold Dhl.dashboard_page, Dhl.dashboard_body, Dhl.status_section,
    Dhl.efficiency_section, Dhl.recent_section, Dhl.shipments_page,
    Dhl.view_shipments_tab, Dhl.update_shipment_tab, Dhl.customers_page,
    Dhl.customer_section, Dhl.parcels_page, Dhl.parcel_section,
    Dhl.analytics_page, Dhl.analytics_body, Dhl.performance_section,
    Dhl.route_visualization_page, Dhl.search_shipments,
    Dhl.search_customers, Dhl.metric_card, Dhl.footer;
  cbv zeta.

Section WholeRuns.
Context {U : UnicodeCase} {R : RegexEngine} {L : Libraries}.

Lemma script_without_click (i : Dhl.inputs) (w : Dhl.backend) :
  Dhl.update_clicked i = false ->
  all_events (fun e => negb (is_put_or_rerun e)) (Dhl.script i w).
Proof.
  intros C. unfold Dhl.script. apply all_events_bind.
  - destruct (Dhl.page i); open_pages; rewrite ?C;
      unfold Dhl.update_shipment_button; page_steps.
  - intros []. open_pages. page_steps.
Qed.

(** X18.  A run in which Update Shipment is not pressed makes no PUT and
    asks for no rerun, on each of the six pages, whatever the backend
    answers and whatever the libraries do.  The run that follows a rerun
    is such a run: an accepted update is sent once and reruns the script
    once. *)
Theorem no_update_without_click :
  (forall i w, Dhl.update_clicked i = false ->
               all_events (fun e => negb (is_put_or_rerun e)) (Dhl.script i w))
  /\ (forall i w',
         all_events (fun e => negb (is_put_or_rerun e))
                    (Dhl.script (Dhl.rerun_inputs i) w')).
Proof.
  split.
  - exact script_without_click.
  - intros i w'. now apply script_without_click.
Qed.

Lemma pages_have_no_footer (i : Dhl.inputs) (w : Dhl.backend) :
  all_events (fun e => negb (is_footer e))
    match Dhl.page i with
    | Dhl.Dashboard => Dhl.dashboard_page w
    | Dhl.Shipments => Dhl.shipments_page i w
    | Dhl.Customers => Dhl.customers_page i w
    | Dhl.Parcels => Dhl.parcels_page i w
    | Dhl.Analytics => Dhl.analytics_page w
    | Dhl.RouteVisualization => Dhl.route_visualization_page w
    end.
Proof. destruct (Dhl.page i); open_pages; page_steps. Qed.

(** X19.  On each of the six pages the footer is shown exactly when the
    page runs to its end: a page cut short by an uncaught exception (a
    search pattern that does not compile, a summary without a count, data
    that a library refuses) or by a rerun has no footer. *)
Theorem footer_iff_run_completes (i : Dhl.inputs) (w : Dhl.backend) :
  existsb is_footer (trace (Dhl.script i w)) = true <->
  outcome (Dhl.script i w) = inr tt.
Proof.
  unfold Dhl.script. pose proof (pages_have_no_footer i w) as H.
  destruct (match Dhl.page i with
            | Dhl.Dashboard => _ | _ => _ end) as [t [e|[]]].
  - unfold all_events in H. simpl in *. split; [|discriminate].
    intros E. apply filter_none in H.
    apply existsb_exists in E. destruct E as (x & I & F).
    assert (I' : In x (filter is_footer t)) by (apply filter_In; now split).
    rewrite H in I'. destruct I'.
  - simpl. split; [reflexivity|]. intros _.
    rewrite existsb_app. apply orb_true_iff. right. reflexivity.
Qed.
End WholeRuns.

Lemma no_update_without_click_witness :
  all_events (fun e => negb (is_put_or_rerun e))
    (Dhl.script (U := ascii_case) (R := simple_patterns_only)
       (L := sample_libraries)
       (sample_inputs Dhl.Shipments false)
       (sample_backend (Failed []) (respond 200 (Json JNull)))).
Proof.
  apply (proj1 (no_update_without_click (U := ascii_case)
                  (R := simple_patterns_only) (L := sample_libraries))).
  reflexivity.
Defined.

(** ** The requests of a page *)

Lemma requests_bind {A B} (m : run A) (k : A -> run B) :
  requests (bind m k) =
  requests m ++ match outcome m with
                | inr a => requests (k a)
                | inl _ => []
                end.
Proof.
  unfold requests. destruct m as [t [e|a]]; simpl.
  - now rewrite app_nil_r.
  - destruct (k a) as [t' r]. simpl. now rewrite filter_app.
Qed.

Lemma outcome_bind {A B} (m : run A) (k : A -> run B) (b : B) :
  outcome (bind m k) = inr b ->
  exists a, outcome m = inr a /\ outcome (k a) = inr b.
Proof.
  destruct m as [t [e|a]]; simpl; [discriminate|].
  intros E. exists a. split; [reflexivity|]. now destruct (k a).
Qed.

Lemma asks_bind {A B} (l1 l2 : list event) (m : run A) (k : A -> run B) :
  asks l1 m -> (forall a, asks l2 (k a)) -> asks (l1 ++ l2) (bind m k).
Proof.
  intros [[n N] M] K. split.
  - rewrite requests_bind. destruct (outcome m) as [e|a] eqn:O.
    + exists (Nat.min n (List.length l1)). rewrite app_nil_r, N.
      rewrite firstn_app.
      replace (Nat.min n (List.length l1) - List.length l1) with 0 by lia.
      cbn [firstn]. rewrite app_nil_r.
      destruct (Nat.le_ge_cases n (List.length l1)) as [H|H].
      * now rewrite Nat.min_l.
      * rewrite Nat.min_r by exact H. now rewrite !firstn_all2.
    + destruct (K a) as [[n' N'] _]. exists (List.length l1 + n').
      rewrite (M a eq_refl), N', firstn_app.
      replace (firstn (List.length l1 + n') l1) with l1
        by (symmetry; apply firstn_all2; lia).
      now replace (List.length l1 + n' - List.length l1) with n' by lia.
  - intros b O. rewrite requests_bind.
    destruct (outcome_bind _ _ O) as (a & Oa & Ob). rewrite Oa.
    rewrite (M a Oa). f_equal. now apply (proj2 (K a) b).
Qed.

(** A step that makes no request. *)
Lemma asks_skip {A B} (l : list event) (m : run A) (k : A -> run B) :
  all_events (fun e => negb (is_request e)) m ->
  (forall a, asks l (k a)) -> asks l (bind m k).
Proof.
  intros S K. apply (asks_bind (l1 := []) (l2 := l)); [|exact K].
  unfold all_events in S. apply filter_none in S. unfold asks, requests.
  rewrite S. split; [now exists 0 | reflexivity].
Qed.

Lemma asks_nothing {A} (m : run A) :
  all_events (fun e => negb (is_request e)) m -> asks [] m.
Proof.
  intros S. unfold all_events in S. apply filter_none in S.
  unfold asks, requests. rewrite S. split; [now exists 0 | reflexivity].
Qed.

Lemma asks_fetch {A B} (endpoint : fstring) (net : http_result A)
    (l : list event) (k : option A -> run B) :
  (forall o, asks l (k o)) ->
  asks (http_get (dhl_url endpoint) :: l)
       (bind (Dhl.fetch_api_data endpoint net) k).
Proof.
  intros K.
  apply (asks_bind (l1 := [http_get (dhl_url endpoint)]) (l2 := l)); [|exact K].
  unfold asks, requests.
  destruct (fetch_api_data_split endpoint net) as [(a & _ & ->) | (_ & e & ->)];
    (split; [now exists 1 | reflexivity]).
Qed.

(** The steps of a page that ask for nothing. *)
Ltac quiet := apply asks_skip; [page_steps | intros ?].

Section Requests.
Context {U : UnicodeCase} {R : RegexEngine} {L : Libraries}.

Lemma dashboard_body_asks (w : Dhl.backend) (summary : json) :
  asks section_requests (Dhl.dashboard_body w summary).
Proof.
  unfold Dhl.dashboard_body, Dhl.status_section, Dhl.efficiency_section,
    Dhl.recent_section, section_requests, recent_endpoint.
  do 4 (apply asks_skip; [unfold Dhl.metric_card; page_steps | intros ?]).
  apply (asks_bind (l1 := [_]) (l2 := [_; _])).
  { quiet. apply asks_fetch. intros o. apply asks_nothing. page_steps. }
  intros _. apply (asks_bind (l1 := [_]) (l2 := [_])).
  { quiet. apply asks_fetch. intros o. apply asks_nothing. page_steps. }
  intros _. quiet. apply asks_fetch. intros o. apply asks_nothing. page_steps.
Qed.

Lemma dashboard_page_cases (w : Dhl.backend) :
  (exists s, answers (Dhl.summary_api w) s /\ truthy s = true /\
             Dhl.dashboard_page w =
             (Dhl.main_header (u "DHL Logistics Dashboard") :: summary_request
                :: trace (Dhl.dashboard_body w s),
              outcome (Dhl.dashboard_body w s)))
  \/ ((forall s, answers (Dhl.summary_api w) s -> truthy s = false) /\
      exists t, Dhl.dashboard_page w =
                (Dhl.main_header (u "DHL Logistics Dashboard")
                   :: summary_request :: t, inr tt) /\
                forallb is_st_error t = true).
Proof.
  unfold Dhl.dashboard_page, summary_request.
  destruct (fetch_api_data_split [Text (u "/dashboard/summary")]
              (Dhl.summary_api w)) as [(s & S & ->) | (N & e & ->)].
  - destruct (truthy s) eqn:T.
    + left. exists s. split; [exact S|]. split; [exact T|].
      cbn [bind emit ret app]. rewrite when_truthy_true by exact T.
      now destruct (Dhl.dashboard_body w s).
    + right. split.
      * intros s' S'. now rewrite (answers_unique S' S).
      * exists []. split; [|reflexivity]. cbn [bind emit ret app].
        now rewrite when_truthy_false by exact T.
  - right. split.
    + intros s S. now elim (N s).
    + exists [fetch_error e]. split; reflexivity.
Qed.

(** X20.  The dashboard page asks for the summary first and then, in this
    order, for the status counts, the efficiency figures and the five
    recent shipments: its requests are always a first part of this list.
    Without a summary that is fetched and true, the summary is its only
    request.  With one, a page that runs to its end has made all four,
    whether or not the three later fetches succeed; a page that an
    exception cuts short has made only those before it. *)
Theorem dashboard_requests (w : Dhl.backend) :
  (exists k, requests (Dhl.dashboard_page w) =
             firstn (S k) (summary_request :: section_requests))
  /\ ((forall s, answers (Dhl.summary_api w) s -> truthy s = false) ->
      requests (Dhl.dashboard_page w) = [summary_request])
  /\ (forall s, answers (Dhl.summary_api w) s -> truthy s = true ->
        outcome (Dhl.dashboard_page w) = inr tt ->
        requests (Dhl.dashboard_page w) = summary_request :: section_requests).
Proof.
  assert (Q : forall t, forallb is_st_error t = true -> filter is_request t = []).
  { intros t H. apply filter_none. rewrite forallb_forall in *.
    intros x I. specialize (H x I). now destruct x. }
  assert (H : forall l,
             filter is_request
               (Dhl.main_header (u "DHL Logistics Dashboard")
                  :: summary_request :: l) =
             summary_request :: filter is_request l) by reflexivity.
  destruct (dashboard_page_cases w) as [(s & S & T & E) | (F & t & E & M)].
  - destruct (dashboard_body_asks w s) as [[k K] B].
    unfold requests in *. rewrite E. cbn [trace outcome fst snd]. rewrite H.
    split; [|split].
    + exists k. cbn [firstn]. now rewrite K.
    + intros F. rewrite (F s S) in T. discriminate T.
    + intros s' _ _ O. f_equal. now apply (B tt).
  - unfold requests. rewrite E. cbn [trace outcome fst snd].
    rewrite H, (Q t M). split; [|split].
    + now exists 0.
    + reflexivity.
    + intros s S T. rewrite (F s S) in T. discriminate T.
Qed.


(** X26.  Data that the libraries refuse end the dashboard in the section
    that builds them: when the status counts are fetched, true and
    refused, the run ends with the exception of the library after the
    request of the status counts, and the efficiency figures and the
    recent shipments are not asked for. *)
Theorem refused_data_end_the_dashboard
    (w : Dhl.backend) (kv : list (pystr * json)) (data : json) (e : exn) :
  answers (Dhl.summary_api w) (JObj kv) -> has_counts kv = true ->
  answers (Dhl.status_count_api w) data -> truthy data = true ->
  raises (pd_DataFrame data) = Some e
  \/ (raises (pd_DataFrame data) = None /\
      raises (build (st_plotly_chart (px_pie data))) = Some e) ->
  outcome (Dhl.dashboard_page w) = inl e
  /\ requests (Dhl.dashboard_page w) =
     [summary_request;
      http_get (dhl_url [Text (u "/analytics/shipment-status-count")])]
  /\ ~ In (st_plotly_chart (px_pie data)) (trace (Dhl.dashboard_page w)).
Proof.
  intros S C A T X. unfold Dhl.dashboard_page, summary_request, requests.
  destruct (fetch_api_data_split [Text (u "/dashboard/summary")]
              (Dhl.summary_api w)) as [(s & S' & ->) | (N & _)];
    [|now elim (N (JObj kv))].
  rewrite (answers_unique S' S). clear s S'.
  destruct (has_counts_values kv C) as (a & b & c & d & Ea & Eb & Ec & Ed).
  assert (Tk : truthy (JObj kv) = true).
  { destruct kv; [discriminate Ea | reflexivity]. }
  cbn [bind emit ret app]. rewrite when_truthy_true by exact Tk.
  unfold Dhl.dashboard_body.
  rewrite (metric_card_ok _ _ _ Ea), (metric_card_ok _ _ _ Eb),
    (metric_card_ok _ _ _ Ec), (metric_card_ok _ _ _ Ed).
  unfold Dhl.status_section.
  destruct (fetch_api_data_split [Text (u "/analytics/shipment-status-count")]
              (Dhl.status_count_api w)) as [(s & A' & ->) | (N & _)];
    [|now elim (N data)].
  rewrite (answers_unique A' A). clear s A'.
  cbn [bind emit ret app]. rewrite when_truthy_true by exact T.
  destruct X as [F | [F D]].
  - rewrite (library_call_raises _ F). cbn.
    repeat split; try reflexivity.
    intros I. repeat (destruct I as [I | I]; [discriminate I|]). exact I.
  - rewrite (library_call_ok _ F). unfold display.
    rewrite (library_call_raises _ D). cbn.
    repeat split; try reflexivity.
    intros I. repeat (destruct I as [I | I]; [discriminate I|]). exact I.
Qed.

Lemma analytics_body_asks (w : Dhl.backend) (analytics : json) :
  asks [efficiency_request] (Dhl.analytics_body w analytics).
Proof.
  unfold Dhl.analytics_body, Dhl.performance_section, efficiency_request.
  cbv zeta. do 17 quiet.
  apply asks_fetch. intros o. apply asks_nothing. page_steps.
Qed.

(** X27.  The Analytics page asks for the shipment metrics first.  The
    efficiency figures are asked for only under that fetch, after the
    three metrics and the scatter plot: a page that runs to its end on
    fetched metrics has made both requests, in this order, and a page
    whose metrics are not fetched, are empty or are refused by a library
    has made the first only. *)
Theorem analytics_requests (w : Dhl.backend) :
  (exists k, requests (Dhl.analytics_page w) =
             firstn (S k) [analytics_request; efficiency_request])
  /\ ((forall a, answers (Dhl.analytics_api w) a -> truthy a = false) ->
      requests (Dhl.analytics_page w) = [analytics_request])
  /\ (forall a, answers (Dhl.analytics_api w) a -> truthy a = true ->
        outcome (Dhl.analytics_page w) = inr tt ->
        requests (Dhl.analytics_page w) =
        [analytics_request; efficiency_request])
  /\ (forall a e, answers (Dhl.analytics_api w) a -> truthy a = true ->
        raises (pd_DataFrame a) = Some e ->
        Dhl.analytics_page w =
        ([Dhl.main_header (u "Logistics Analytics");
          Dhl.sub_header (u "Shipment Performance Metrics");
          analytics_request], inl e)).
Proof.
  unfold Dhl.analytics_page, analytics_request.
  destruct (fetch_api_data_split [Text (u "/analytics/shipments")]
              (Dhl.analytics_api w)) as [(a & A & ->) | (N & e & ->)].
  - destruct (truthy a) eqn:T.
    + cbn [bind emit ret app]. rewrite when_truthy_true by exact T.
      destruct (analytics_body_asks w a) as [[k K] B].
      split; [|split; [|split]].
      * exists k. unfold requests in *.
        destruct (Dhl.analytics_body w a) as [t r]. simpl in *. now rewrite K.
      * intros F. rewrite (F a A) in T. discriminate T.
      * intros a' _ _ O. unfold requests in *.
        destruct (Dhl.analytics_body w a) as [t [x|[]]]; [discriminate O|].
        simpl in *. f_equal. now apply (B tt).
      * intros a' e A' _ X. rewrite (answers_unique A' A) in X.
        unfold Dhl.analytics_body. now rewrite (library_call_raises _ X).
    + cbn [bind emit ret app]. rewrite when_truthy_false by exact T.
      split; [|split; [|split]].
      * now exists 0.
      * reflexivity.
      * intros a' A' T'. rewrite (answers_unique A' A) in T'. congruence.
      * intros a' e A' T'. rewrite (answers_unique A' A) in T'. congruence.
  - split; [|split; [|split]].
    + now exists 0.
    + reflexivity.
    + intros a A. now elim (N a).
    + intros a x A. now elim (N a).
Qed.
End Requests.

Lemma dashboard_requests_witness :
  let w := sample_backend (respond 200 (Json sample_summary)) (Failed []) in
  requests (Dhl.dashboard_page (L := sample_libraries) w) =
  summary_request :: section_requests.
Proof.
  intros w.
  apply (proj2 (proj2 (dashboard_requests (L := sample_libraries) w))
           sample_summary).
  - eexists. repeat split.
  - reflexivity.
  - reflexivity.
Defined.


(** Libraries that refuse every chart, for concrete runs. *)
Lemma refused_data_end_the_dashboard_witness :
  let strict := {| raises := fun c => match c with
                                      | build (st_plotly_chart _) =>
                                          Some (ValueError (u "count"))
                                      | _ => None
                                      end |} in
  let w := sample_backend (respond 200 (Json sample_summary)) (Failed []) in
  outcome (Dhl.dashboard_page (L := strict) w) = inl (ValueError (u "count"))
  /\ requests (Dhl.dashboard_page (L := strict) w) =
     [summary_request;
      http_get (dhl_url [Text (u "/analytics/shipment-status-count")])]
  /\ ~ In (st_plotly_chart (px_pie sample_status_counts))
          (trace (Dhl.dashboard_page (L := strict) w)).
Proof.
  intros strict w.
  apply (refused_data_end_the_dashboard (L := strict) w
           (kv := [(u "total_shipments", JInt 12); (u "active_shipments", JInt 5);
                   (u "delayed_shipments", JInt 1);
                   (u "completed_shipments", JInt 6)])
           (data := sample_status_counts)).
  - eexists. repeat split.
  - reflexivity.
  - eexists. repeat split.
  - reflexivity.
  - right. split; reflexivity.
Defined.

Lemma analytics_requests_witness :
  let w := {| Dhl.summary_api := Failed [];
              Dhl.status_count_api := Failed [];
              Dhl.efficiency_api := respond 200 (Json (JList []));
              Dhl.analytics_api :=
                respond 200
                  (Json (JList [JObj [(u "ShipmentID", JInt 7);
                                      (u "Efficiency", JInt 90);
                                      (u "CustomerRating", JInt 4);
                                      (u "Delays", JInt 1)]]));
              Dhl.shipments_api := fun _ => Failed [];
              Dhl.customers_api := Failed [];
              Dhl.customer_api := fun _ => Failed [];
              Dhl.parcels_api := Failed [];
              Dhl.routes_api := Failed [];
              Dhl.locations_api := Failed [];
              Dhl.put_shipment_api := fun _ _ => Failed [] |} in
  requests (Dhl.analytics_page (L := sample_libraries) w) =
  [analytics_request; efficiency_request].
Proof.
  intros w.
  eapply (proj1 (proj2 (proj2 (analytics_requests (L := sample_libraries) w)))).
  - eexists. repeat split.
  - reflexivity.
  - reflexivity.
Defined.

(** ** The Route Visualization page *)

Lemma range_length (n : Z) : List.length (Routes.range n) = Z.to_nat n.
Proof. unfold Routes.range. now rewrite length_map, length_seq. Qed.

Lemma range_spec (n z : Z) : In z (Routes.range n) <-> (0 <= z < n)%Z.
Proof.
  unfold Routes.range. rewrite in_map_iff. split.
  - intros (k & <- & I). apply in_seq in I. lia.
  - intros H. exists (Z.to_nat z). split; [lia|]. apply in_seq. lia.
Qed.

Lemma nth_error_range (n : Z) (k : nat) :
  k < Z.to_nat n -> nth_error (Routes.range n) k = Some (Z.of_nat k).
Proof.
  intros H. unfold Routes.range. rewrite nth_error_map.
  rewrite (nth_error_nth' _ 0) by (now rewrite length_seq).
  now rewrite seq_nth.
Qed.

(** X21.  A route of n points gives n - 1 edges, none when it has no point
    or one: the k-th edge (from 0) joins the positions k and k + 1 of the
    route and carries the route's name and weight.  The edges of a list of
    routes are those of its routes, one route after the other: positions
    are counted within a route, so routes of the same length give the same
    pairs of positions. *)
Theorem edges_join_consecutive_points
    (route : Routes.route) (routes : list Routes.route) :
  List.length (Routes.edges [route]) = List.length (Routes.routePoints route) - 1
  /\ (forall k, k + 1 < List.length (Routes.routePoints route) ->
        nth_error (Routes.edges [route]) k =
        Some {| Routes.source := Z.of_nat k;
                Routes.target := Z.of_nat k + 1;
                Routes.edge_weight := Routes.weight route;
                Routes.shipment := Routes.shipmentName route |})
  /\ Routes.edges (route :: routes) = Routes.edges [route] ++ Routes.edges routes.
Proof.
  unfold Routes.edges. cbn [flat_map]. rewrite app_nil_r. split; [|split].
  - rewrite length_map, range_length. unfold Routes.len. lia.
  - intros k H. rewrite nth_error_map, nth_error_range; [reflexivity|].
    unfold Routes.len. lia.
  - reflexivity.
Qed.

Lemma nth_error_enumerate_from {A} (l : list A) (k i : nat) :
  nth_error (combine (map Z.of_nat (seq k (List.length l))) l) i =
  option_map (pair (Z.of_nat (k + i))) (nth_error l i).
Proof.
  revert k i; induction l as [|a l IH]; intros k i; simpl.
  - now destruct i.
  - destruct i as [|i]; simpl.
    + now rewrite Nat.add_0_r.
    + rewrite IH. now rewrite Nat.add_succ_r.
Qed.

(** X22.  The figure holds one marker per location, in the order of the
    list, then one line per route: the marker of the i-th location (from
    0) is the i-th trace, at x = 100 i and y = 100 (i mod 3), and the line
    of the j-th route follows the markers.  Markers of different positions
    never coincide, and every marker is on one of the three rows 0, 100,
    200. *)
Theorem figure_traces (active_routes : list Routes.route) (locations : list pystr) :
  (forall i location, nth_error locations i = Some location ->
      nth_error (Routes.figure active_routes locations) i =
      Some (Routes.node_trace (Z.of_nat i) location))
  /\ (forall j route, nth_error active_routes j = Some route ->
         nth_error (Routes.figure active_routes locations)
                   (List.length locations + j) =
         Some (Routes.route_trace route))
  /\ List.length (Routes.figure active_routes locations) =
       List.length locations + List.length active_routes
  /\ (forall i j a b,
         Routes.scatter_x (Routes.node_trace i a) =
         Routes.scatter_x (Routes.node_trace j b) -> i = j)
  /\ (forall i a,
         In (Routes.scatter_y (Routes.node_trace i a))
            [[JInt 0]; [JInt 100]; [JInt 200]]).
Proof.
  assert (L : List.length (Routes.enumerate locations) = List.length locations).
  { unfold Routes.enumerate. rewrite length_combine, range_length.
    unfold Routes.len. lia. }
  repeat split.
  - intros i location E. unfold Routes.figure.
    rewrite nth_error_app1
      by (rewrite length_map, L; apply nth_error_Some; congruence).
    rewrite nth_error_map. unfold Routes.enumerate, Routes.range, Routes.len.
    rewrite Nat2Z.id, nth_error_enumerate_from, E. reflexivity.
  - intros j route E. unfold Routes.figure.
    rewrite nth_error_app2 by (rewrite length_map, L; lia).
    rewrite length_map, L.
    replace (List.length locations + j - List.length locations) with j by lia.
    now rewrite nth_error_map, E.
  - unfold Routes.figure. now rewrite length_app, !length_map, L.
  - intros i j a b E. simpl in E. injection E as E. lia.
  - intros i a. simpl.
    assert (H : (0 <= i mod 3 < 3)%Z) by (apply Z.mod_pos_bound; lia).
    assert (C : (i mod 3 = 0 \/ i mod 3 = 1 \/ i mod 3 = 2)%Z) by lia.
    destruct C as [-> | [-> | ->]]; simpl; auto.
Qed.

(** X23.  The Route Visualization page always makes its two fetches, the
    routes and then the locations, even when the first fails.  When both
    answer with lists that are not empty the page is its header, the two
    requests, the figure under its title and the table under its title,
    and it runs to its end.  When a fetch fails or a list is empty, the
    page runs to its end with nothing but its header beside the requests
    and the messages of the fetches: no title, figure or table. *)
Theorem route_page_guard (w : Dhl.backend) :
  requests (Dhl.route_visualization_page w) = [routes_request; locations_request]
  /\ (forall routes locs,
         answers (Dhl.routes_api w) routes -> answers (Dhl.locations_api w) locs ->
         routes <> [] -> locs <> [] ->
         Dhl.route_visualization_page w =
         ([Dhl.main_header (u "Route Visualization");
           routes_request; locations_request;
           Dhl.sub_header (u "Active Shipment Routes");
           st_plotly_chart (go_Scatter (Routes.figure routes locs));
           Dhl.sub_header (u "Active Shipments");
           st_dataframe_rows (Routes.active_df routes)], inr tt))
  /\ ((forall routes, answers (Dhl.routes_api w) routes -> routes = []) \/
      (forall locs, answers (Dhl.locations_api w) locs -> locs = []) ->
      outcome (Dhl.route_visualization_page w) = inr tt
      /\ elements (Dhl.route_visualization_page w) =
         [Dhl.main_header (u "Route Visualization")]).
Proof.
  unfold Dhl.route_visualization_page, routes_request, locations_request,
    requests, elements.
  destruct (fetch_api_data_split [Text (u "/route/active-shipments")]
              (Dhl.routes_api w)) as [(a & A & ->) | (Na & ea & ->)];
    destruct (fetch_api_data_split [Text (u "/route/locations")]
                (Dhl.locations_api w)) as [(b & B & ->) | (Nb & eb & ->)].
  - split; [|split].
    + destruct a, b; reflexivity.
    + intros routes locs A' B' N1 N2.
      rewrite (answers_unique A' A) in *. rewrite (answers_unique B' B) in *.
      destruct a; [now elim N1|]. destruct b; [now elim N2|]. reflexivity.
    + intros [N | N].
      * rewrite (N a A). now destruct b.
      * rewrite (N b B). now destruct a.
  - split; [reflexivity|]. split.
    + intros routes locs _ B'. now elim (Nb locs).
    + intros _. split; reflexivity.
  - split; [reflexivity|]. split.
    + intros routes locs A'. now elim (Na routes).
    + intros _. split; reflexivity.
  - split; [reflexivity|]. split.
    + intros routes locs A'. now elim (Na routes).
    + intros _. split; reflexivity.
Qed.

Lemma route_page_guard_witness :
  let routes_backend routes_net locations_net :=
    {| Dhl.summary_api := Failed [];
       Dhl.status_count_api := Failed [];
       Dhl.efficiency_api := Failed [];
       Dhl.analytics_api := Failed [];
       Dhl.shipments_api := fun _ => Failed [];
       Dhl.customers_api := Failed [];
       Dhl.customer_api := fun _ => Failed [];
       Dhl.parcels_api := Failed [];
       Dhl.routes_api := routes_net;
       Dhl.locations_api := locations_net;
       Dhl.put_shipment_api := fun _ _ => Failed [] |} in
  let w := routes_backend (respond 200 (Json [sample_route]))
             (respond 200 (Json [u "Leipzig"; u "Bonn"])) in
  let w' := routes_backend (Failed []) (respond 200 (Json [u "Leipzig"])) in
  Dhl.route_visualization_page w =
    ([Dhl.main_header (u "Route Visualization");
      routes_request; locations_request;
      Dhl.sub_header (u "Active Shipment Routes");
      st_plotly_chart
        (go_Scatter (Routes.figure [sample_route] [u "Leipzig"; u "Bonn"]));
      Dhl.sub_header (u "Active Shipments");
      st_dataframe_rows (Routes.active_df [sample_route])], inr tt)
  /\ (outcome (Dhl.route_visualization_page w') = inr tt
      /\ elements (Dhl.route_visualization_page w') =
         [Dhl.main_header (u "Route Visualization")]).
Proof.
  intros routes_backend w w'. split.
  - apply (proj1 (proj2 (route_page_guard w)));
      try discriminate; eexists; repeat split.
  - apply (proj2 (proj2 (route_page_guard w'))). left.
    intros routes (r & E & _). discriminate E.
Defined.
